(** * The training monitor of hivemind/resnet/netmind

    A shallow embedding of [run_training_monitor.py]: the [CheckpointHandler]
    class and the polling loop of the script's main block.

    Conventions of the embedding.
    - Python [int] is [Z].  The floats of the records and of what the loop
      computes from them (losses, throughputs) are binary64 values: the
      Standard Library's [spec_float] at precision 53 and maximal exponent
      1024, with its correctly rounded operations, its infinities and its
      NaN.  Clock readings and the two periods are rationals [Q]: the loop
      only subtracts and compares them.
    - An uncaught Python exception is the [Raise] result of the monad [M]; the
      state reached when the exception was raised is kept next to it.
    - Calls that leave the process (the DHT, the state averager, the clock, the
      logger, [time.sleep], [hmp]) are recorded as [event]s, in program order.
      What the outside world answers to them on one iteration of the loop is
      the [TickEnv] of that iteration.
    - [is_time_to_save_state] makes no such call, so its entry is recorded by
      a mark of its own; the other three methods of the handler each begin
      with a recorded call. *)

From Stdlib Require Import ZArith QArith List Bool String Lia Lqa Permutation.
From Stdlib Require Import SpecFloat.
Import ListNotations.

Open Scope Z_scope.

(** ** Exceptions and results *)

Inductive exn : Type :=
| ValueError          (* max() of an empty sequence *)
| ValidationError     (* utils.LocalMetrics.parse_obj *)
| ZeroDivisionError   (* sum_loss / sum_mini_steps *)
| OverflowError       (* int too large to convert to float *)
| TypeError           (* float >= None *)
| NameError           (* checkpoint_handler was never bound *)
| RuntimeError        (* raised by an external service *)
| TimeoutError.       (* raised by an external service *)

Inductive res (A : Type) : Type :=
| Ret (a : A)
| Raise (e : exn).

Arguments Ret {A} a.
Arguments Raise {A} e.

(** ** Python floats *)

Definition float : Type := spec_float.
Definition float_prec : Z := 53.
Definition float_emax : Z := 1024.

Definition float_zero : float := S754_zero false.
Definition float_add : float -> float -> float := SFadd float_prec float_emax.
Definition float_div : float -> float -> float := SFdiv float_prec float_emax.

(** The float nearest to an integer (ties to even); infinite past the
    largest float. *)
Definition nearest_float (z : Z) : float :=
  binary_normalize float_prec float_emax z 0 false.

(** The conversion of an [int] operand to [float]: OverflowError where
    the nearest float would be infinite. *)
Definition float_of_int (z : Z) : res float :=
  match nearest_float z with
  | S754_infinity _ => Raise OverflowError
  | f => Ret f
  end.

(** ** Data *)

(** utils.LocalMetrics: the record a peer publishes, with the five attributes
    the loop reads.  The class is declared in utils.py, outside the two files
    embedded here; how it validates a payload is the parameter [parse_obj] of
    the section below. *)
Module LocalMetrics.
Record t : Type := Build {
  step : Z;
  samples_per_second : float;
  samples_accumulated : Z;
  loss : float;
  mini_steps : Z }.
End LocalMetrics.

(** The dictionary assigned to [monitor_metrics] at lines 209-214; the empty
    dictionary the script starts with is [None] of [option MonitorMetrics.t]. *)
Module MonitorMetrics.
Record t : Type := Build {
  loss : float;            (* "loss" *)
  alive_peers : Z;         (* "alive peers" *)
  samples : Z;             (* "samples" *)
  performance : float }.   (* "performance" *)
End MonitorMetrics.

(** ** Events *)

Inductive event : Type :=
| EvDhtGet                                   (* dht.get(prefix + "_metrics", latest=True) *)
| EvDebugGot (n : nat)                       (* logger.debug, line 188 *)
| EvDebugPeer (i : nat) (m : LocalMetrics.t) (* logger.debug, line 191 *)
| EvInfoStep (step : Z) (loss : float)       (* logger.info, line 207 *)
| EvIsTimeToSaveState (cur_step : Z)         (* is_time_to_save_state is entered *)
| EvInfoSaving                               (* logger.info, line 119 *)
| EvLoadState                                (* state_averager.load_state_from_peers() *)
| EvTime (now : Q)                           (* time.time() *)
| EvSavePretrained                           (* hmp.save_pretrained() *)
| EvDebugAlive                               (* logger.debug, line 221 *)
| EvSleep (period : Q)                       (* time.sleep(refresh_period) *)
| EvHmpStep (step : Z) (m : option MonitorMetrics.t). (* hmp.step(current_step, monitor_metrics) *)

(** ** The monad: state, exceptions and the trace of events *)

Definition M (S A : Type) : Type := S -> res A * S * list event.

Definition ret {S A} (a : A) : M S A := fun s => (Ret a, s, []).

Definition bind {S A B} (m : M S A) (k : A -> M S B) : M S B :=
  fun s =>
    match m s with
    | (Ret a, s1, evs1) =>
        match k a s1 with
        | (r, s2, evs2) => (r, s2, evs1 ++ evs2)
        end
    | (Raise e, s1, evs1) => (Raise e, s1, evs1)
    end.

Definition lift_res {S A} (r : res A) : M S A := fun s => (r, s, []).
Definition emit {S} (e : event) : M S unit := fun s => (Ret tt, s, [e]).
Definition emit_all {S} (evs : list event) : M S unit := fun s => (Ret tt, s, evs).
Definition get {S} : M S S := fun s => (Ret s, s, []).
Definition put {S} (s' : S) : M S unit := fun _ => (Ret tt, s', []).

Declare Scope monad_scope.
Delimit Scope monad_scope with monad.
Notation "x <- c1 ;; c2" := (bind c1 (fun x => c2))
  (at level 100, c1 at next level, right associativity) : monad_scope.
Notation "c1 ;; c2" := (bind c1 (fun _ => c2))
  (at level 100, right associativity) : monad_scope.
Open Scope monad_scope.

(** The three components of the outcome of a computation. *)
Definition result {S A} (o : res A * S * list event) : res A := fst (fst o).
Definition final {S A} (o : res A * S * list event) : S := snd (fst o).
Definition events {S A} (o : res A * S * list event) : list event := snd o.

(** An outcome reached after the events [evs] were already produced. *)
Definition after {S A} (evs : list event) (o : res A * S * list event)
  : res A * S * list event :=
  match o with (r, s, evs') => (r, s, evs ++ evs') end.

(** ** Python primitives used by the loop *)

(** [[f(x) for x in xs]]: left to right, the first exception aborts. *)
Fixpoint comprehension {A B} (f : A -> res B) (xs : list A) : res (list B) :=
  match xs with
  | [] => Ret []
  | x :: xs' =>
      match f x with
      | Raise e => Raise e
      | Ret y =>
          match comprehension f xs' with
          | Raise e => Raise e
          | Ret ys => Ret (y :: ys)
          end
      end
  end.

(** [max(iterable)] on integers: ValueError on an empty iterable. *)
Definition py_max (xs : list Z) : res Z :=
  match xs with
  | [] => Raise ValueError
  | x :: xs' => Ret (fold_left Z.max xs' x)
  end.

(** [a / b] with a float dividend and an integer divisor: the divisor is
    converted first, then tested against zero, then the floats are divided. *)
Definition py_truediv (a : float) (b : Z) : res float :=
  match float_of_int b with
  | Raise e => Raise e
  | Ret fb => if b =? 0 then Raise ZeroDivisionError else Ret (float_div a fb)
  end.

(** [enumerate(xs)]. *)
Fixpoint enumerate_from {A} (i : nat) (xs : list A) : list (nat * A) :=
  match xs with
  | [] => []
  | x :: xs' => (i, x) :: enumerate_from (S i) xs'
  end.

(** ** class CheckpointHandler *)

Module CheckpointHandler.

(** The attributes the methods under study read or write.  The model, the
    optimizer and the state averager built by [__init__] are external
    services; their calls are events. *)
Record t : Type := Build {
  save_checkpoint_step_interval : option Z;
  upload_interval : option Q;
  previous_step : Z;
  previous_timestamp : Q }.

Definition set_previous_step (self : t) (v : Z) : t :=
  {| save_checkpoint_step_interval := save_checkpoint_step_interval self;
     upload_interval := upload_interval self;
     previous_step := v;
     previous_timestamp := previous_timestamp self |}.

Definition set_previous_timestamp (self : t) (v : Q) : t :=
  {| save_checkpoint_step_interval := save_checkpoint_step_interval self;
     upload_interval := upload_interval self;
     previous_step := previous_step self;
     previous_timestamp := v |}.

(** [__init__]: [now] is what [time.time()] returns at line 108. *)
Definition init (interval : option Z) (upload : option Q) (now : Q) : t :=
  {| save_checkpoint_step_interval := interval;
     upload_interval := upload;
     previous_step := -1;
     previous_timestamp := now |}.

Definition is_time_to_save_state (cur_step : Z) : M t bool :=
  emit (EvIsTimeToSaveState cur_step) ;;
  self <- get ;;
  match save_checkpoint_step_interval self with
  | None => ret false
  | Some interval =>
      if interval <=? cur_step - previous_step self then ret true else ret false
  end.

(** [pull] is the outcome of [load_state_from_peers()]. *)
Definition save_state (pull : res unit) (cur_step : Z) : M t unit :=
  emit EvInfoSaving ;;
  emit EvLoadState ;;
  lift_res pull ;;
  self <- get ;;
  put (set_previous_step self cur_step).

(** [now] is what [time.time()] returns. *)
Definition is_time_to_upload (now : Q) : M t bool :=
  emit (EvTime now) ;;
  self <- get ;;
  match upload_interval self with
  | None => lift_res (Raise TypeError)
  | Some interval =>
      if Qle_bool interval (now - previous_timestamp self) then ret true else ret false
  end.

(** [export] is the outcome of [hmp.save_pretrained()], [now] what
    [time.time()] returns after it. *)
Definition upload_checkpoint (export : res unit) (now : Q) (current_loss : float)
  : M t unit :=
  emit EvSavePretrained ;;
  lift_res export ;;
  emit (EvTime now) ;;
  self <- get ;;
  put (set_previous_timestamp self now).

End CheckpointHandler.

(** ** class TrainingMonitorArguments

    The options the loop and the handler read. *)
Module TrainingMonitorArguments.
Record t : Type := Build {
  refresh_period : Q;
  save_checkpoint_step_interval : option Z;
  upload_interval : option Q;
  store_checkpoints : bool }.
End TrainingMonitorArguments.

(** ** The main block *)

(** The variables of the main block that live across iterations. *)
Record Monitor : Type := BuildMonitor {
  current_step : Z;
  monitor_metrics : option MonitorMetrics.t;
  checkpoint_handler : option CheckpointHandler.t }.

Definition set_current_step (st : Monitor) (v : Z) : Monitor :=
  {| current_step := v;
     monitor_metrics := monitor_metrics st;
     checkpoint_handler := checkpoint_handler st |}.

Definition set_monitor_metrics (st : Monitor) (v : MonitorMetrics.t) : Monitor :=
  {| current_step := current_step st;
     monitor_metrics := Some v;
     checkpoint_handler := checkpoint_handler st |}.

Definition set_checkpoint_handler (st : Monitor) (h : CheckpointHandler.t) : Monitor :=
  {| current_step := current_step st;
     monitor_metrics := monitor_metrics st;
     checkpoint_handler := Some h |}.

(** A method call [checkpoint_handler.m(...)]: NameError when the name was
    never bound (the handler is built only under [store_checkpoints]). *)
Definition on_checkpoint_handler {A} (m : M CheckpointHandler.t A) : M Monitor A :=
  fun st =>
    match checkpoint_handler st with
    | None => (Raise NameError, st, [])
    | Some h =>
        match m h with
        | (r, h', evs) => (r, set_checkpoint_handler st h', evs)
        end
    end.

(** The accumulators of lines 194-198 and the loop of lines 200-205.  The
    two float accumulators start as the integer 0, which the first addition
    converts to the float 0.0; the division is reached with at least one
    record added. *)
Record Sums : Type := BuildSums {
  alive_peers : Z;
  sum_loss : float;
  num_samples : Z;
  sum_perf : float;
  sum_mini_steps : Z }.

Definition sums_init : Sums :=
  {| alive_peers := 0; sum_loss := float_zero; num_samples := 0; sum_perf := float_zero;
     sum_mini_steps := 0 |}.

Definition sums_add (acc : Sums) (item : LocalMetrics.t) : Sums :=
  {| sum_loss := float_add (sum_loss acc) (LocalMetrics.loss item);
     alive_peers := alive_peers acc + 1;
     sum_perf := float_add (sum_perf acc) (LocalMetrics.samples_per_second item);
     num_samples := num_samples acc + LocalMetrics.samples_accumulated item;
     sum_mini_steps := sum_mini_steps acc + LocalMetrics.mini_steps item |}.

Definition sum_metrics (metrics : list LocalMetrics.t) : Sums :=
  fold_left sums_add metrics sums_init.

Section MonitorLoop.

(** Peer identifiers and undecoded payloads, as the DHT returns them, and
    [utils.LocalMetrics.parse_obj], declared in utils.py and taken here as a
    parameter: it returns the decoded record or raises. *)
Variable PeerId : Type.
Variable Raw : Type.
Variable parse_obj : Raw -> res LocalMetrics.t.

(** [monitor_args], fixed once parsed. *)
Variable monitor_args : TrainingMonitorArguments.t.

(** What the outside world answers during one iteration. *)
Record TickEnv : Type := BuildTickEnv {
  dht_get : res (option (list (PeerId * Raw)));  (* dht.get(...): raises, None, or the mapping *)
  load_state_from_peers : res unit;              (* returns or raises *)
  time_check : Q;                                (* time.time() in is_time_to_upload *)
  save_pretrained : res unit;                    (* returns or raises *)
  time_upload : Q }.                             (* time.time() in upload_checkpoint *)

(** Lines 174-177; [now] is the clock read by [CheckpointHandler.__init__]. *)
Definition startup (now : Q) : Monitor :=
  {| current_step := 0;
     monitor_metrics := None;
     checkpoint_handler :=
       if TrainingMonitorArguments.store_checkpoints monitor_args
       then Some (CheckpointHandler.init
                    (TrainingMonitorArguments.save_checkpoint_step_interval monitor_args)
                    (TrainingMonitorArguments.upload_interval monitor_args) now)
       else None |}.

(** Lines 216-220. *)
Definition checkpoint_block (env : TickEnv) (cur_step : Z) (current_loss : float)
  : M Monitor unit :=
  if TrainingMonitorArguments.store_checkpoints monitor_args then
    (save <- on_checkpoint_handler (CheckpointHandler.is_time_to_save_state cur_step) ;;
     if (save : bool) then
       (on_checkpoint_handler
          (CheckpointHandler.save_state (load_state_from_peers env) cur_step) ;;
        upload <- on_checkpoint_handler (CheckpointHandler.is_time_to_upload (time_check env)) ;;
        if (upload : bool) then
          on_checkpoint_handler
            (CheckpointHandler.upload_checkpoint (save_pretrained env) (time_upload env)
               current_loss)
        else ret tt)
     else ret tt)
  else ret tt.

(** Lines 188-220: the body of [if latest_step != current_step]. *)
Definition report_block (env : TickEnv) (metrics : list LocalMetrics.t) (latest_step : Z)
  : M Monitor unit :=
  emit (EvDebugGot (List.length metrics)) ;;
  emit_all (map (fun im => EvDebugPeer (fst im) (snd im)) (enumerate_from 0 metrics)) ;;
  st <- get ;;
  put (set_current_step st latest_step) ;;
  let acc := sum_metrics metrics in
  current_loss <- lift_res (py_truediv (sum_loss acc) (sum_mini_steps acc)) ;;
  emit (EvInfoStep latest_step current_loss) ;;
  st <- get ;;
  put (set_monitor_metrics st
         {| MonitorMetrics.loss := current_loss;
            MonitorMetrics.alive_peers := alive_peers acc;
            MonitorMetrics.samples := num_samples acc;
            MonitorMetrics.performance := sum_perf acc |}) ;;
  checkpoint_block env latest_step current_loss.

(** Lines 180-220: fetch, decode, compare, report. *)
Definition poll (env : TickEnv) : M Monitor unit :=
  emit EvDhtGet ;;
  metrics_dict <- lift_res (dht_get env) ;;
  match metrics_dict with
  | None => ret tt
  | Some d =>
      metrics <- lift_res (comprehension parse_obj (map snd d)) ;;
      latest_step <- lift_res (py_max (map LocalMetrics.step metrics)) ;;
      st <- get ;;
      if negb (latest_step =? current_step st)
      then report_block env metrics latest_step
      else ret tt
  end.

(** One iteration of [while True] (lines 180-223).  The three closing calls
    are recorded as calls that return: what the logger, [time.sleep] or
    [hmp.step] could raise is not part of the model. *)
Definition tick (env : TickEnv) : M Monitor unit :=
  poll env ;;
  emit EvDebugAlive ;;
  emit (EvSleep (TrainingMonitorArguments.refresh_period monitor_args)) ;;
  st <- get ;;
  emit (EvHmpStep (current_step st) (monitor_metrics st)).

(** The loop, run for as many iterations as there are answers; it stops at
    the first exception, which nothing in the script catches. *)
Fixpoint run (envs : list TickEnv) : M Monitor unit :=
  match envs with
  | [] => ret tt
  | env :: envs' => tick env ;; run envs'
  end.

End MonitorLoop.

Arguments BuildTickEnv {PeerId Raw}.
Arguments dht_get {PeerId Raw}.
Arguments load_state_from_peers {PeerId Raw}.
Arguments time_check {PeerId Raw}.
Arguments save_pretrained {PeerId Raw}.
Arguments time_upload {PeerId Raw}.
Arguments checkpoint_block {PeerId Raw}.
Arguments report_block {PeerId Raw}.
Arguments poll {PeerId Raw}.
Arguments tick {PeerId Raw}.
Arguments run {PeerId Raw}.

(** ** A concrete instance, for running the loop on examples

    Peers are named by strings.  A payload is either well-formed, and then
    [parse_obj] returns its record, or malformed, and then [parse_obj] raises
    [ValidationError]. *)
Inductive Payload : Type :=
| WellFormed (m : LocalMetrics.t)
| Malformed.

Definition parse_payload (p : Payload) : res LocalMetrics.t :=
  match p with
  | WellFormed m => Ret m
  | Malformed => Raise ValidationError
  end.

Definition Env : Type := TickEnv string Payload.

(** Answers of a world in which every external call succeeds and the clock
    reads [now]. *)
Definition answers (d : option (list (string * Payload))) (now : Q) : Env :=
  {| dht_get := Ret d;
     load_state_from_peers := Ret tt;
     time_check := now;
     save_pretrained := Ret tt;
     time_upload := now |}.

(** A record whose loss is the float of an integer and whose throughput is
    0.0. *)
Definition record (step : Z) (loss : Z) (mini_steps : Z) : LocalMetrics.t :=
  {| LocalMetrics.step := step;
     LocalMetrics.samples_per_second := float_zero;
     LocalMetrics.samples_accumulated := 0;
     LocalMetrics.loss := nearest_float loss;
     LocalMetrics.mini_steps := mini_steps |}.

Definition peer (step : Z) (loss : Z) (mini_steps : Z) : Payload :=
  WellFormed (record step loss mini_steps).

(** The script's defaults where it has some: refresh every 30 seconds, save
    every 5 steps; checkpoints switched off. *)
Definition args_no_checkpoints : TrainingMonitorArguments.t :=
  {| TrainingMonitorArguments.refresh_period := 30%Q;
     TrainingMonitorArguments.save_checkpoint_step_interval := Some 5;
     TrainingMonitorArguments.upload_interval := None;
     TrainingMonitorArguments.store_checkpoints := false |}.

Definition args_checkpoints (interval : Z) (upload : Q) : TrainingMonitorArguments.t :=
  {| TrainingMonitorArguments.refresh_period := 30%Q;
     TrainingMonitorArguments.save_checkpoint_step_interval := Some interval;
     TrainingMonitorArguments.upload_interval := Some upload;
     TrainingMonitorArguments.store_checkpoints := true |}.

Definition monitor_at (step : Z) : Monitor :=
  {| current_step := step; monitor_metrics := None; checkpoint_handler := None |}.

(** Scenario C: a handler that saves every 10 steps and last saved at step 0,
    in a monitor that holds step 8; uploads are an hour apart. *)
Definition handler_scenario_c : CheckpointHandler.t :=
  {| CheckpointHandler.save_checkpoint_step_interval := Some 10;
     CheckpointHandler.upload_interval := Some 3600%Q;
     CheckpointHandler.previous_step := 0;
     CheckpointHandler.previous_timestamp := 0%Q |}.

Definition monitor_scenario_c : Monitor :=
  {| current_step := 8;
     monitor_metrics := None;
     checkpoint_handler := Some handler_scenario_c |}.

(** The two records of scenarios A and B. *)
Definition two_peers_at_5 : list (string * Payload) :=
  [("p1"%string, peer 5 1 2); ("p2"%string, peer 5 3 2)].

(** ** Observations on a trace *)

Definition is_info_step (e : event) : bool :=
  match e with EvInfoStep _ _ => true | _ => false end.
Definition is_load_state (e : event) : bool :=
  match e with EvLoadState => true | _ => false end.
Definition is_time (e : event) : bool :=
  match e with EvTime _ => true | _ => false end.
Definition is_save_pretrained (e : event) : bool :=
  match e with EvSavePretrained => true | _ => false end.
Definition is_sleep (e : event) : bool :=
  match e with EvSleep _ => true | _ => false end.
Definition is_hmp_step (e : event) : bool :=
  match e with EvHmpStep _ _ => true | _ => false end.
Definition is_checkpoint_event (e : event) : bool :=
  match e with
  | EvIsTimeToSaveState _ | EvInfoSaving | EvLoadState | EvTime _ | EvSavePretrained => true
  | _ => false
  end.

(** A snapshot is emitted: the line "Step #... loss = ..." is logged; the
    assignment to [monitor_metrics] follows it at once and cannot fail. *)
Definition emits_snapshot (evs : list event) : bool := existsb is_info_step evs.
(** A save is performed: the state pull is called. *)
Definition pulls_state (evs : list event) : bool := existsb is_load_state evs.
(** The upload check is evaluated, or the upload stamps its time: the clock is read. *)
Definition reads_clock (evs : list event) : bool := existsb is_time evs.
(** An upload is performed: the export is called. *)
Definition exports (evs : list event) : bool := existsb is_save_pretrained evs.
Definition sleeps (evs : list event) : bool := existsb is_sleep evs.
Definition calls_hmp_step (evs : list event) : bool := existsb is_hmp_step evs.
(** A method of the checkpoint handler is entered. *)
Definition touches_checkpoints (evs : list event) : bool := existsb is_checkpoint_event evs.

(** The floats [xs] added one after the other, from the left, starting from
    0.0. *)
Definition float_sum (xs : list float) : float := fold_left float_add xs float_zero.

(** The integer sums, by recursion on the list of records. *)
Fixpoint total_mini_steps (ms : list LocalMetrics.t) : Z :=
  match ms with
  | [] => 0
  | m :: ms' => LocalMetrics.mini_steps m + total_mini_steps ms'
  end.

Fixpoint total_samples (ms : list LocalMetrics.t) : Z :=
  match ms with
  | [] => 0
  | m :: ms' => LocalMetrics.samples_accumulated m + total_samples ms'
  end.

(** The events by which the checkpoint handler leaves the process: the state
    pull, the clock and the export. *)
Definition is_checkpoint_call (e : event) : bool :=
  match e with
  | EvLoadState | EvTime _ | EvSavePretrained => true
  | _ => false
  end.

(** Every record the store hands out in this iteration is at step 0. *)
Definition all_at_zero {PeerId Raw} (parse_obj : Raw -> res LocalMetrics.t)
    (env : TickEnv PeerId Raw) : Prop :=
  forall d ms,
    dht_get env = Ret (Some d) ->
    comprehension parse_obj (map snd d) = Ret ms ->
    Forall (fun m => LocalMetrics.step m = 0) ms.

(** The events of an iteration that neither reports nor checkpoints, when the
    step it holds is 0 and no metrics were ever computed. *)
Definition idle_at_zero (e : event) : bool :=
  match e with
  | EvDhtGet | EvDebugAlive | EvSleep _ => true
  | EvHmpStep s None => s =? 0
  | _ => false
  end.

(** ** The paths through one iteration

    One constructor per path through the code, with the condition under
    which it is taken and the outcome it leaves.  The lemmas
    [checkpoint_block_cases] and [tick_cases] below show that the embedded
    code always follows one of them. *)

Section Paths.

Variable PeerId : Type.
Variable Raw : Type.
Variable parse_obj : Raw -> res LocalMetrics.t.
Variable monitor_args : TrainingMonitorArguments.t.

Definition debug_lines (ms : list LocalMetrics.t) : list event :=
  EvDebugGot (List.length ms)
    :: map (fun im => EvDebugPeer (fst im) (snd im)) (enumerate_from 0 ms).

Definition closing_events (st : Monitor) : list event :=
  [EvDebugAlive;
   EvSleep (TrainingMonitorArguments.refresh_period monitor_args);
   EvHmpStep (current_step st) (monitor_metrics st)].

(** Paths through lines 216-220, entered in state [st] with [cur_step]. *)
Inductive checkpoint_path (env : TickEnv PeerId Raw) (cur_step : Z) (st : Monitor)
  : res unit * Monitor * list event -> Prop :=
| CpDisabled :
    TrainingMonitorArguments.store_checkpoints monitor_args = false ->
    checkpoint_path env cur_step st (Ret tt, st, [])
| CpUnbound :
    TrainingMonitorArguments.store_checkpoints monitor_args = true ->
    checkpoint_handler st = None ->
    checkpoint_path env cur_step st (Raise NameError, st, [])
| CpNoInterval h :
    TrainingMonitorArguments.store_checkpoints monitor_args = true ->
    checkpoint_handler st = Some h ->
    CheckpointHandler.save_checkpoint_step_interval h = None ->
    checkpoint_path env cur_step st
      (Ret tt, set_checkpoint_handler st h, [EvIsTimeToSaveState cur_step])
| CpTooEarly h interval :
    TrainingMonitorArguments.store_checkpoints monitor_args = true ->
    checkpoint_handler st = Some h ->
    CheckpointHandler.save_checkpoint_step_interval h = Some interval ->
    cur_step - CheckpointHandler.previous_step h < interval ->
    checkpoint_path env cur_step st
      (Ret tt, set_checkpoint_handler st h, [EvIsTimeToSaveState cur_step])
| CpPullRaises h interval e :
    TrainingMonitorArguments.store_checkpoints monitor_args = true ->
    checkpoint_handler st = Some h ->
    CheckpointHandler.save_checkpoint_step_interval h = Some interval ->
    interval <= cur_step - CheckpointHandler.previous_step h ->
    load_state_from_peers env = Raise e ->
    checkpoint_path env cur_step st
      (Raise e, set_checkpoint_handler st h,
       [EvIsTimeToSaveState cur_step; EvInfoSaving; EvLoadState])
| CpNoUploadInterval h interval :
    TrainingMonitorArguments.store_checkpoints monitor_args = true ->
    checkpoint_handler st = Some h ->
    CheckpointHandler.save_checkpoint_step_interval h = Some interval ->
    interval <= cur_step - CheckpointHandler.previous_step h ->
    load_state_from_peers env = Ret tt ->
    CheckpointHandler.upload_interval h = None ->
    checkpoint_path env cur_step st
      (Raise TypeError,
       set_checkpoint_handler st (CheckpointHandler.set_previous_step h cur_step),
       [EvIsTimeToSaveState cur_step; EvInfoSaving; EvLoadState; EvTime (time_check env)])
| CpSavedOnly h interval upload :
    TrainingMonitorArguments.store_checkpoints monitor_args = true ->
    checkpoint_handler st = Some h ->
    CheckpointHandler.save_checkpoint_step_interval h = Some interval ->
    interval <= cur_step - CheckpointHandler.previous_step h ->
    load_state_from_peers env = Ret tt ->
    CheckpointHandler.upload_interval h = Some upload ->
    ~ (upload <= time_check env - CheckpointHandler.previous_timestamp h)%Q ->
    checkpoint_path env cur_step st
      (Ret tt,
       set_checkpoint_handler st (CheckpointHandler.set_previous_step h cur_step),
       [EvIsTimeToSaveState cur_step; EvInfoSaving; EvLoadState; EvTime (time_check env)])
| CpExportRaises h interval upload e :
    TrainingMonitorArguments.store_checkpoints monitor_args = true ->
    checkpoint_handler st = Some h ->
    CheckpointHandler.save_checkpoint_step_interval h = Some interval ->
    interval <= cur_step - CheckpointHandler.previous_step h ->
    load_state_from_peers env = Ret tt ->
    CheckpointHandler.upload_interval h = Some upload ->
    (upload <= time_check env - CheckpointHandler.previous_timestamp h)%Q ->
    save_pretrained env = Raise e ->
    checkpoint_path env cur_step st
      (Raise e,
       set_checkpoint_handler st (CheckpointHandler.set_previous_step h cur_step),
       [EvIsTimeToSaveState cur_step; EvInfoSaving; EvLoadState; EvTime (time_check env);
      EvSavePretrained])
| CpUploaded h interval upload :
    TrainingMonitorArguments.store_checkpoints monitor_args = true ->
    checkpoint_handler st = Some h ->
    CheckpointHandler.save_checkpoint_step_interval h = Some interval ->
    interval <= cur_step - CheckpointHandler.previous_step h ->
    load_state_from_peers env = Ret tt ->
    CheckpointHandler.upload_interval h = Some upload ->
    (upload <= time_check env - CheckpointHandler.previous_timestamp h)%Q ->
    save_pretrained env = Ret tt ->
    checkpoint_path env cur_step st
      (Ret tt,
       set_checkpoint_handler st
         (CheckpointHandler.set_previous_timestamp
            (CheckpointHandler.set_previous_step h cur_step) (time_upload env)),
       [EvIsTimeToSaveState cur_step; EvInfoSaving; EvLoadState; EvTime (time_check env);
      EvSavePretrained;
        EvTime (time_upload env)]).

(** The state in which the checkpoint block is entered, and the loss it is
    given, when the records [ms] are reported at step [latest_step]. *)
Definition reported_loss (ms : list LocalMetrics.t) : float :=
  float_div (sum_loss (sum_metrics ms)) (nearest_float (sum_mini_steps (sum_metrics ms))).

Definition reported_state (st : Monitor) (ms : list LocalMetrics.t) (latest_step : Z)
  : Monitor :=
  set_monitor_metrics (set_current_step st latest_step)
    {| MonitorMetrics.loss := reported_loss ms;
       MonitorMetrics.alive_peers := alive_peers (sum_metrics ms);
       MonitorMetrics.samples := num_samples (sum_metrics ms);
       MonitorMetrics.performance := sum_perf (sum_metrics ms) |}.

(** Paths through one iteration entered in state [st]. *)
Inductive tick_path (env : TickEnv PeerId Raw) (st : Monitor)
  : res unit * Monitor * list event -> Prop :=
| TickGetRaises e :
    dht_get env = Raise e ->
    tick_path env st (Raise e, st, [EvDhtGet])
| TickAbsent :
    dht_get env = Ret None ->
    tick_path env st (Ret tt, st, EvDhtGet :: closing_events st)
| TickMalformed d e :
    dht_get env = Ret (Some d) ->
    comprehension parse_obj (map snd d) = Raise e ->
    tick_path env st (Raise e, st, [EvDhtGet])
| TickEmpty :
    dht_get env = Ret (Some []) ->
    tick_path env st (Raise ValueError, st, [EvDhtGet])
| TickTie d ms :
    dht_get env = Ret (Some d) ->
    comprehension parse_obj (map snd d) = Ret ms ->
    py_max (map LocalMetrics.step ms) = Ret (current_step st) ->
    tick_path env st (Ret tt, st, EvDhtGet :: closing_events st)
| TickZeroDivision d ms latest_step :
    dht_get env = Ret (Some d) ->
    comprehension parse_obj (map snd d) = Ret ms ->
    py_max (map LocalMetrics.step ms) = Ret latest_step ->
    latest_step <> current_step st ->
    total_mini_steps ms = 0 ->
    tick_path env st
      (Raise ZeroDivisionError, set_current_step st latest_step,
       EvDhtGet :: debug_lines ms)
| TickOverflow d ms latest_step :
    dht_get env = Ret (Some d) ->
    comprehension parse_obj (map snd d) = Ret ms ->
    py_max (map LocalMetrics.step ms) = Ret latest_step ->
    latest_step <> current_step st ->
    float_of_int (total_mini_steps ms) = Raise OverflowError ->
    tick_path env st
      (Raise OverflowError, set_current_step st latest_step,
       EvDhtGet :: debug_lines ms)
| TickReportRaises d ms latest_step e st' evs :
    dht_get env = Ret (Some d) ->
    comprehension parse_obj (map snd d) = Ret ms ->
    py_max (map LocalMetrics.step ms) = Ret latest_step ->
    latest_step <> current_step st ->
    total_mini_steps ms <> 0 ->
    float_of_int (total_mini_steps ms) = Ret (nearest_float (total_mini_steps ms)) ->
    checkpoint_path env latest_step (reported_state st ms latest_step) (Raise e, st', evs) ->
    tick_path env st
      (Raise e, st',
       EvDhtGet :: debug_lines ms ++ EvInfoStep latest_step (reported_loss ms) :: evs)
| TickReport d ms latest_step st' evs :
    dht_get env = Ret (Some d) ->
    comprehension parse_obj (map snd d) = Ret ms ->
    py_max (map LocalMetrics.step ms) = Ret latest_step ->
    latest_step <> current_step st ->
    total_mini_steps ms <> 0 ->
    float_of_int (total_mini_steps ms) = Ret (nearest_float (total_mini_steps ms)) ->
    checkpoint_path env latest_step (reported_state st ms latest_step) (Ret tt, st', evs) ->
    tick_path env st
      (Ret tt, st',
       EvDhtGet :: debug_lines ms ++ EvInfoStep latest_step (reported_loss ms) :: evs
         ++ closing_events st').

End Paths.

Arguments checkpoint_path {PeerId Raw}.
Arguments tick_path {PeerId Raw}.

(** * Properties *)

(** ** The Python primitives *)

Lemma comprehension_length {A B} (f : A -> res B) (xs : list A) (ys : list B) :
  comprehension f xs = Ret ys -> List.length ys = List.length xs.
Proof.
  revert ys; induction xs as [|x xs IH]; intros ys H; simpl in H.
  - now inversion H.
  - destruct (f x) as [y|e]; [|discriminate].
    destruct (comprehension f xs) as [ys'|e]; [|discriminate].
    inversion H; subst; simpl; f_equal; now apply IH.
Qed.

Lemma fold_max_ge_init (xs : list Z) (a : Z) : a <= fold_left Z.max xs a.
Proof.
  revert a; induction xs as [|x xs IH]; intros a; simpl; [lia|].
  specialize (IH (Z.max a x)); lia.
Qed.

Lemma fold_max_upper (xs : list Z) (a x : Z) :
  In x xs -> x <= fold_left Z.max xs a.
Proof.
  revert a; induction xs as [|y xs IH]; intros a Hin; simpl in *; [easy|].
  destruct Hin as [->|Hin]; [|now apply IH].
  pose proof (fold_max_ge_init xs (Z.max a x)); lia.
Qed.

Lemma fold_max_attained (xs : list Z) (a : Z) :
  fold_left Z.max xs a = a \/ In (fold_left Z.max xs a) xs.
Proof.
  revert a; induction xs as [|y xs IH]; intros a; simpl; [now left|].
  destruct (IH (Z.max a y)) as [E|Hin]; [|now right; right].
  rewrite E; destruct (Z.max_spec a y) as [[_ ->]|[_ ->]]; [right|]; now left.
Qed.

Lemma py_max_spec (xs : list Z) (m : Z) :
  py_max xs = Ret m -> In m xs /\ forall x, In x xs -> x <= m.
Proof.
  destruct xs as [|a xs]; simpl; [discriminate|].
  intros H; inversion H; subst; clear H; split.
  - destruct (fold_max_attained xs a) as [->|Hin]; [now left|now right].
  - intros x [<-|Hin]; [apply fold_max_ge_init|now apply fold_max_upper].
Qed.

Lemma py_max_empty (xs : list Z) : py_max xs = Raise ValueError <-> xs = [].
Proof. destruct xs; simpl; split; intros H; congruence. Qed.

Lemma py_max_cases (xs : list Z) :
  (xs = [] /\ py_max xs = Raise ValueError) \/ (exists m, py_max xs = Ret m).
Proof. destruct xs; simpl; [now left|right; eauto]. Qed.

(** ** The accumulation loop computes the sums of the specification *)

Lemma fold_sums_mini (ms : list LocalMetrics.t) (acc : Sums) :
  sum_mini_steps (fold_left sums_add ms acc) = sum_mini_steps acc + total_mini_steps ms.
Proof.
  revert acc; induction ms as [|m ms IH]; intros acc; simpl; [lia|].
  rewrite IH; simpl; lia.
Qed.

Lemma fold_sums_alive (ms : list LocalMetrics.t) (acc : Sums) :
  alive_peers (fold_left sums_add ms acc) = alive_peers acc + Z.of_nat (List.length ms).
Proof.
  revert acc; induction ms as [|m ms IH]; intros acc.
  - simpl; lia.
  - change (fold_left sums_add (m :: ms) acc) with (fold_left sums_add ms (sums_add acc m)).
    rewrite IH; simpl List.length; simpl alive_peers; lia.
Qed.


Lemma sum_metrics_mini (ms : list LocalMetrics.t) :
  sum_mini_steps (sum_metrics ms) = total_mini_steps ms.
Proof. unfold sum_metrics; now rewrite fold_sums_mini. Qed.

Lemma sum_metrics_alive (ms : list LocalMetrics.t) :
  alive_peers (sum_metrics ms) = Z.of_nat (List.length ms).
Proof. unfold sum_metrics; now rewrite fold_sums_alive. Qed.


Lemma float_of_int_ret (z : Z) (f : float) :
  float_of_int z = Ret f -> f = nearest_float z.
Proof.
  unfold float_of_int; destruct (nearest_float z); intros H; now inversion H.
Qed.

Lemma float_of_int_cases (z : Z) :
  float_of_int z = Raise OverflowError \/ float_of_int z = Ret (nearest_float z).
Proof. unfold float_of_int; destruct (nearest_float z); auto. Qed.

Lemma py_truediv_cases (a : float) (b : Z) :
  (float_of_int b = Raise OverflowError /\ py_truediv a b = Raise OverflowError) \/
  (b = 0 /\ py_truediv a b = Raise ZeroDivisionError) \/
  (b <> 0 /\ float_of_int b = Ret (nearest_float b) /\
   py_truediv a b = Ret (float_div a (nearest_float b))).
Proof.
  unfold py_truediv.
  destruct (float_of_int_cases b) as [H|H]; rewrite H; [now left|right].
  destruct (Z.eqb_spec b 0); [left|right]; repeat split; auto.
Qed.

(** ** Debug lines are none of the observed events *)

Lemma debug_peers_unobserved (p : event -> bool) (ms : list LocalMetrics.t) (i : nat) :
  (forall j m, p (EvDebugPeer j m) = false) ->
  existsb p (map (fun im => EvDebugPeer (fst im) (snd im)) (enumerate_from i ms)) = false.
Proof.
  intros Hp; revert i; induction ms as [|m ms IH]; intros i; simpl; [easy|].
  now rewrite Hp, IH.
Qed.

(** ** The embedded code follows the paths *)

(** ** Laws of the monad *)

Lemma after_nil {S A} (o : res A * S * list event) : after [] o = o.
Proof. now destruct o as [[r s] evs]. Qed.

Lemma after_after {S A} (evs1 evs2 : list event) (o : res A * S * list event) :
  after evs1 (after evs2 o) = after (evs1 ++ evs2) o.
Proof. destruct o as [[r s] evs]; simpl; now rewrite app_assoc. Qed.

Lemma bind_eq {S A B} (m : M S A) (k : A -> M S B) (s : S) :
  bind m k s =
  match m s with
  | (Ret a, s1, evs1) => after evs1 (k a s1)
  | (Raise e, s1, evs1) => (Raise e, s1, evs1)
  end.
Proof.
  unfold bind, after. destruct (m s) as [[[a|e] s1] evs1]; [|reflexivity].
  now destruct (k a s1) as [[r s2] evs2].
Qed.

Lemma bind_ret {S A B} (a : A) (k : A -> M S B) (s : S) : bind (ret a) k s = k a s.
Proof. rewrite bind_eq; unfold ret; apply after_nil. Qed.

Lemma bind_lift_ret {S A B} (a : A) (k : A -> M S B) (s : S) :
  bind (lift_res (Ret a)) k s = k a s.
Proof. rewrite bind_eq; unfold lift_res; apply after_nil. Qed.

Lemma bind_lift_raise {S A B} (e : exn) (k : A -> M S B) (s : S) :
  bind (lift_res (Raise e)) k s = (Raise e, s, []).
Proof. now rewrite bind_eq. Qed.

Lemma bind_emit {S B} (e : event) (k : unit -> M S B) (s : S) :
  bind (emit e) k s = after [e] (k tt s).
Proof. now rewrite bind_eq. Qed.

Lemma bind_emit_all {S B} (evs : list event) (k : unit -> M S B) (s : S) :
  bind (emit_all evs) k s = after evs (k tt s).
Proof. now rewrite bind_eq. Qed.

Lemma bind_get {S B} (k : S -> M S B) (s : S) : bind get k s = k s s.
Proof. rewrite bind_eq; unfold get; apply after_nil. Qed.

Lemma bind_put {S B} (s' : S) (k : unit -> M S B) (s : S) : bind (put s') k s = k tt s'.
Proof. rewrite bind_eq; unfold put; apply after_nil. Qed.

Lemma set_checkpoint_handler_same (st : Monitor) (h : CheckpointHandler.t) :
  checkpoint_handler st = Some h -> set_checkpoint_handler st h = st.
Proof. destruct st; simpl; intros ->; reflexivity. Qed.

Lemma set_checkpoint_handler_twice (st : Monitor) (h h' : CheckpointHandler.t) :
  set_checkpoint_handler (set_checkpoint_handler st h) h' = set_checkpoint_handler st h'.
Proof. reflexivity. Qed.

Section Cases.

Variable PeerId : Type.
Variable Raw : Type.
Variable parse_obj : Raw -> res LocalMetrics.t.
Variable monitor_args : TrainingMonitorArguments.t.

Lemma checkpoint_block_cases (env : TickEnv PeerId Raw) (cur_step : Z) (loss : float)
    (st : Monitor) :
  checkpoint_path monitor_args env cur_step st
    (checkpoint_block monitor_args env cur_step loss st).
Proof.
  unfold checkpoint_block.
  destruct (TrainingMonitorArguments.store_checkpoints monitor_args) eqn:Hstore;
    [|now apply CpDisabled].
  unfold bind at 1, on_checkpoint_handler at 1.
  destruct (checkpoint_handler st) as [h|] eqn:Hh; [|now apply CpUnbound].
  unfold CheckpointHandler.is_time_to_save_state, bind, get, emit; simpl.
  destruct (CheckpointHandler.save_checkpoint_step_interval h) as [interval|] eqn:Hi;
    [|simpl; now apply CpNoInterval].
  destruct (Z.leb_spec interval (cur_step - CheckpointHandler.previous_step h)) as [Hle|Hlt];
    [|simpl; eapply CpTooEarly; eassumption].
  simpl. unfold on_checkpoint_handler; simpl.
  unfold CheckpointHandler.save_state, CheckpointHandler.is_time_to_upload,
    CheckpointHandler.upload_checkpoint, bind, emit, lift_res, get, put, ret; simpl.
  destruct (load_state_from_peers env) as [[]|e] eqn:Hpull; simpl;
    rewrite ?set_checkpoint_handler_twice;
    [|eapply CpPullRaises; eassumption].
  destruct (CheckpointHandler.upload_interval h) as [upload|] eqn:Hu; simpl;
    rewrite ?set_checkpoint_handler_twice;
    [|eapply CpNoUploadInterval; eassumption].
  destruct (Qle_bool upload (time_check env - CheckpointHandler.previous_timestamp h))
    eqn:Hq; simpl; rewrite ?set_checkpoint_handler_twice.
  - apply Qle_bool_iff in Hq.
    destruct (save_pretrained env) as [[]|e] eqn:Hexp; simpl;
      rewrite ?set_checkpoint_handler_twice.
    + eapply CpUploaded; eassumption.
    + eapply CpExportRaises; eassumption.
  - eapply CpSavedOnly; try eassumption.
    intros Hle'; apply Qle_bool_iff in Hle'; congruence.
Qed.

Lemma tick_of_poll (env : TickEnv PeerId Raw) (st : Monitor) :
  tick parse_obj monitor_args env st =
  match poll parse_obj monitor_args env st with
  | (Ret _, st', evs) => (Ret tt, st', evs ++ closing_events monitor_args st')
  | (Raise e, st', evs) => (Raise e, st', evs)
  end.
Proof.
  unfold tick, bind at 1.
  destruct (poll parse_obj monitor_args env st) as [[[[]|e] st'] evs]; reflexivity.
Qed.

Lemma report_block_eq (env : TickEnv PeerId Raw) (ms : list LocalMetrics.t)
    (latest_step : Z) (st : Monitor) :
  report_block monitor_args env ms latest_step st =
  match py_truediv (sum_loss (sum_metrics ms)) (sum_mini_steps (sum_metrics ms)) with
  | Raise e => (Raise e, set_current_step st latest_step, debug_lines ms)
  | Ret current_loss =>
      after (debug_lines ms ++ [EvInfoStep latest_step current_loss])
        (checkpoint_block monitor_args env latest_step current_loss
           (set_monitor_metrics (set_current_step st latest_step)
              {| MonitorMetrics.loss := current_loss;
                 MonitorMetrics.alive_peers := alive_peers (sum_metrics ms);
                 MonitorMetrics.samples := num_samples (sum_metrics ms);
                 MonitorMetrics.performance := sum_perf (sum_metrics ms) |}))
  end.
Proof.
  unfold report_block.
  rewrite bind_emit, bind_emit_all, bind_get, bind_put.
  destruct (py_truediv (sum_loss (sum_metrics ms)) (sum_mini_steps (sum_metrics ms)))
    as [current_loss|e].
  - rewrite bind_lift_ret, bind_emit, bind_get, bind_put.
    rewrite !after_after, <- app_assoc. reflexivity.
  - rewrite bind_lift_raise. unfold after, debug_lines; simpl.
    now rewrite app_nil_r.
Qed.

Lemma poll_eq (env : TickEnv PeerId Raw) (st : Monitor) :
  poll parse_obj monitor_args env st =
  after [EvDhtGet]
    match dht_get env with
    | Raise e => (Raise e, st, [])
    | Ret None => (Ret tt, st, [])
    | Ret (Some d) =>
        match comprehension parse_obj (map snd d) with
        | Raise e => (Raise e, st, [])
        | Ret ms =>
            match py_max (map LocalMetrics.step ms) with
            | Raise e => (Raise e, st, [])
            | Ret latest_step =>
                if latest_step =? current_step st then (Ret tt, st, [])
                else report_block monitor_args env ms latest_step st
            end
        end
    end.
Proof.
  unfold poll. rewrite bind_emit. f_equal.
  destruct (dht_get env) as [[d|]|e];
    [|now rewrite bind_lift_ret|now rewrite bind_lift_raise].
  rewrite bind_lift_ret.
  destruct (comprehension parse_obj (map snd d)) as [ms|e];
    [|now rewrite bind_lift_raise].
  rewrite bind_lift_ret.
  destruct (py_max (map LocalMetrics.step ms)) as [mx|e];
    [|now rewrite bind_lift_raise].
  rewrite bind_lift_ret, bind_get.
  now destruct (mx =? current_step st).
Qed.

Lemma tick_cases (env : TickEnv PeerId Raw) (st : Monitor) :
  tick_path parse_obj monitor_args env st (tick parse_obj monitor_args env st).
Proof.
  rewrite tick_of_poll, poll_eq.
  destruct (dht_get env) as [[d|]|e] eqn:Hget; simpl;
    [| now apply TickAbsent | now apply TickGetRaises].
  destruct (comprehension parse_obj (map snd d)) as [ms|e] eqn:Hdec; simpl;
    [|eapply TickMalformed; eassumption].
  destruct (py_max_cases (map LocalMetrics.step ms)) as [[Hnil Hmax]|[mx Hmax]];
    rewrite Hmax; simpl.
  - apply map_eq_nil in Hnil; subst ms.
    apply comprehension_length in Hdec; simpl in Hdec.
    symmetry in Hdec; apply length_zero_iff_nil in Hdec.
    apply map_eq_nil in Hdec; subst d.
    now apply TickEmpty.
  - destruct (Z.eqb_spec mx (current_step st)) as [->|Hne]; simpl.
    + eapply TickTie; eassumption.
    + rewrite report_block_eq.
      destruct (py_truediv_cases (sum_loss (sum_metrics ms)) (sum_mini_steps (sum_metrics ms)))
        as [[Hov Hdiv]|[[Hz Hdiv]|(Hnz & Hfit & Hdiv)]]; rewrite Hdiv; simpl.
      * rewrite sum_metrics_mini in Hov.
        eapply TickOverflow; eassumption.
      * rewrite sum_metrics_mini in Hz.
        eapply TickZeroDivision; eassumption.
      * rewrite sum_metrics_mini in Hnz, Hfit.
        pose proof (checkpoint_block_cases env mx (reported_loss ms)
                      (reported_state st ms mx)) as Hcp.
        fold (reported_loss ms). fold (reported_state st ms mx).
        destruct (checkpoint_block monitor_args env mx (reported_loss ms)
                    (reported_state st ms mx)) as [[[[]|e] st'] evs]; simpl.
        -- rewrite <- !app_assoc; simpl.
           eapply TickReport; eassumption.
        -- rewrite <- !app_assoc; simpl.
           eapply TickReportRaises; eassumption.
Qed.

End Cases.

(** ** Reading the observations off a path *)

Lemma debug_lines_unobserved (p : event -> bool) (ms : list LocalMetrics.t) :
  (forall n, p (EvDebugGot n) = false) ->
  (forall j m, p (EvDebugPeer j m) = false) ->
  existsb p (debug_lines ms) = false.
Proof.
  intros Hgot Hpeer; unfold debug_lines; simpl.
  now rewrite Hgot, debug_peers_unobserved.
Qed.

Lemma filter_debug_lines (p : event -> bool) (ms : list LocalMetrics.t) :
  (forall n, p (EvDebugGot n) = false) ->
  (forall j m, p (EvDebugPeer j m) = false) ->
  filter p (debug_lines ms) = [].
Proof.
  intros Hgot Hpeer; unfold debug_lines; simpl; rewrite Hgot.
  generalize 0%nat; induction ms as [|m ms IH]; intros i; simpl; [easy|].
  now rewrite Hpeer, IH.
Qed.

Lemma in_filter_of (p : event -> bool) (e : event) (evs : list event) :
  p e = true -> In e evs -> In e (filter p evs).
Proof. intros Hp Hin; apply filter_In; now split. Qed.

Opaque debug_lines.

(** [In e evs], with [p e = true], becomes membership in the few events of
    [evs] that satisfy [p]. *)
Ltac in_events p H :=
  apply (in_filter_of p) in H; [|reflexivity];
  unfold events, closing_events in H; simpl in H;
  repeat (rewrite ?filter_app, ?filter_debug_lines in H by (intros; reflexivity);
          simpl in H);
  repeat match type of H with
    | _ \/ _ => destruct H as [H|H]
    | False => destruct H
    | _ = _ => inversion H; subst; clear H
    end.

Ltac observe :=
  unfold emits_snapshot, pulls_state, reads_clock, exports, sleeps, calls_hmp_step,
    touches_checkpoints, closing_events, events, final, result in *;
  simpl in *;
  repeat (rewrite ?existsb_app, ?debug_lines_unobserved in * by (intros; reflexivity);
          simpl in *).

(** Two answers of the same call are the same answer. *)
Ltac same_inputs :=
  repeat match goal with
    | H1 : ?x = Ret _, H2 : ?x = Ret _ |- _ =>
        rewrite H1 in H2; inversion H2; subst; clear H2
    | H1 : ?x = Ret _, H2 : ?x = Raise _ |- _ =>
        rewrite H1 in H2; discriminate H2
    | H1 : ?x = Some _, H2 : ?x = Some _ |- _ =>
        rewrite H1 in H2; inversion H2; subst; clear H2
    | H1 : ?x = Some _, H2 : ?x = None |- _ =>
        rewrite H1 in H2; discriminate H2
    | H1 : ?x = true, H2 : ?x = false |- _ =>
        rewrite H1 in H2; discriminate H2
    end.

(** Case analysis on the path taken by [tick parse args env st]. *)
Ltac tick_paths parse args env st :=
  let P := fresh "P" in
  let o := fresh "o" in
  let Eo := fresh "Eo" in
  pose proof (tick_cases _ _ parse args env st) as P;
  remember (tick parse args env st) as o eqn:Eo; clear Eo;
  destruct P; same_inputs.

(** Discards a path whose conditions contradict the hypotheses. *)
Ltac absurd_path :=
  solve [ congruence
        | match goal with
          | H : float_of_int ?z = Raise _, E : ?z = 0 |- _ =>
              rewrite E in H; vm_compute in H; discriminate H
          end
        | simpl in *;
          repeat match goal with
            | H : Ret _ = Ret _ |- _ => inversion H; subst; clear H
            end;
          simpl in *; first [discriminate | congruence | lia] ].

Ltac checkpoint_inversion :=
  match goal with
  | H : checkpoint_path _ _ _ _ _ |- _ => inversion H; subst; clear H
  end.

Ltac checkpoint_paths :=
  checkpoint_inversion; unfold reported_state in *; simpl in *; same_inputs.

Lemma checkpoint_path_keeps_report {PeerId Raw} (args : TrainingMonitorArguments.t)
    (env : TickEnv PeerId Raw) (cur_step : Z) (st : Monitor)
    (o : res unit * Monitor * list event) :
  checkpoint_path args env cur_step st o ->
  current_step (final o) = current_step st /\
  monitor_metrics (final o) = monitor_metrics st /\
  emits_snapshot (events o) = false /\
  sleeps (events o) = false /\
  calls_hmp_step (events o) = false.
Proof. intros H; destruct H; observe; auto. Qed.

(** ** C9: the global step is the largest peer step *)

(** C9.  When the store returns a non-empty mapping and every payload
    decodes, the [current_step] held after the iteration is the maximum of the
    records' [step] fields: it is the step of one of the records and no record
    has a larger one.  This holds on every path, including those that end in
    an exception after line 193.  The step printed with a reported loss and
    the step handed to [hmp.step] are this same value. *)
Theorem global_step_is_max_step :
  forall (PeerId Raw : Type) (parse_obj : Raw -> res LocalMetrics.t)
         (monitor_args : TrainingMonitorArguments.t)
         (env : TickEnv PeerId Raw) (st : Monitor)
         (d : list (PeerId * Raw)) (ms : list LocalMetrics.t),
    dht_get env = Ret (Some d) ->
    d <> [] ->
    comprehension parse_obj (map snd d) = Ret ms ->
    let o := tick parse_obj monitor_args env st in
    In (current_step (final o)) (map LocalMetrics.step ms) /\
    (forall m, In m ms -> LocalMetrics.step m <= current_step (final o)) /\
    (forall s l, In (EvInfoStep s l) (events o) -> s = current_step (final o)) /\
    (forall s mm, In (EvHmpStep s mm) (events o) -> s = current_step (final o)).
Proof.
  intros PeerId Raw parse_obj monitor_args env st d ms Hget Hne Hdec o.
  assert (Hmax : forall mx, py_max (map LocalMetrics.step ms) = Ret mx ->
                 In mx (map LocalMetrics.step ms) /\
                 forall m, In m ms -> LocalMetrics.step m <= mx).
  { intros mx Hmx; apply py_max_spec in Hmx; destruct Hmx as [Hin Hub]; split; auto.
    intros m Hm; apply Hub; now apply in_map. }
  subst o. tick_paths parse_obj monitor_args env st; try congruence;
    try checkpoint_inversion;
    match goal with H : py_max _ = Ret _ |- _ => destruct (Hmax _ H) as [Hin Hub] end;
    (split; [exact Hin|]); (split; [exact Hub|]);
    (split; [intros s l Hev; in_events is_info_step Hev
            |intros s mm Hev; in_events is_hmp_step Hev]);
    reflexivity.
Qed.

(** Scenario A as an instance: two records at step 5, held step 4. *)
Lemma global_step_is_max_step_witness :
  let env := answers (Some two_peers_at_5) 0%Q in
  let o := tick parse_payload args_no_checkpoints env (monitor_at 4) in
  dht_get env = Ret (Some two_peers_at_5) /\
  two_peers_at_5 <> [] /\
  comprehension parse_payload (map snd two_peers_at_5)
    = Ret [record 5 1 2; record 5 3 2] /\
  In (current_step (final o)) [5; 5] /\
  (forall m, In m [record 5 1 2; record 5 3 2] ->
             LocalMetrics.step m <= current_step (final o)).
Proof.
  intros env o.
  destruct (global_step_is_max_step string Payload parse_payload args_no_checkpoints
              env (monitor_at 4) two_peers_at_5 [record 5 1 2; record 5 3 2])
    as (Hin & Hub & _).
  - reflexivity.
  - discriminate.
  - reflexivity.
  - split; [reflexivity|]. split; [discriminate|]. split; [reflexivity|].
    split; [exact Hin|exact Hub].
Defined.

(** ** C1: when a snapshot is emitted *)

(** C1, as amended.  When the store returns a non-empty mapping and every
    payload decodes, a snapshot is emitted only if the largest peer step
    differs from the step held before the iteration (line 187 tests [!=], so
    a smaller step passes as well as a larger one).  When the two are equal
    nothing is emitted and the whole state, the held step included, is left as
    it was.  When they differ and the division of line 206 raises nothing
    (the mini-steps sum neither to zero nor to an integer too large for a
    float), a snapshot is emitted and the held step becomes the largest peer
    step. *)
Theorem snapshot_only_when_step_differs :
  forall (PeerId Raw : Type) (parse_obj : Raw -> res LocalMetrics.t)
         (monitor_args : TrainingMonitorArguments.t)
         (env : TickEnv PeerId Raw) (st : Monitor)
         (d : list (PeerId * Raw)) (ms : list LocalMetrics.t),
    dht_get env = Ret (Some d) ->
    d <> [] ->
    comprehension parse_obj (map snd d) = Ret ms ->
    let o := tick parse_obj monitor_args env st in
    exists latest_step,
      py_max (map LocalMetrics.step ms) = Ret latest_step /\
      (emits_snapshot (events o) = true -> latest_step <> current_step st) /\
      (latest_step = current_step st ->
         emits_snapshot (events o) = false /\ final o = st) /\
      (latest_step <> current_step st -> total_mini_steps ms <> 0 ->
       float_of_int (total_mini_steps ms) <> Raise OverflowError ->
         emits_snapshot (events o) = true /\ current_step (final o) = latest_step).
Proof.
  intros PeerId Raw parse_obj monitor_args env st d ms Hget Hne Hdec o.
  subst o. tick_paths parse_obj monitor_args env st; try congruence;
    (eexists; split; [eassumption|]).
  - (* equal steps *)
    observe; repeat split; congruence.
  - (* division by zero *)
    observe; repeat split; congruence.
  - (* the sum of the mini-steps does not convert *)
    observe; repeat split; congruence.
  - (* reported, exception in the checkpoint block *)
    match goal with
    | H : checkpoint_path _ _ _ _ _ |- _ =>
        destruct (checkpoint_path_keeps_report _ _ _ _ _ H) as (Hc & _)
    end.
    observe; repeat split; congruence.
  - (* reported *)
    match goal with
    | H : checkpoint_path _ _ _ _ _ |- _ =>
        destruct (checkpoint_path_keeps_report _ _ _ _ _ H) as (Hc & _)
    end.
    observe; repeat split; congruence.
Qed.

(** The claim as first stated asks for a strict increase.  With the held step
    at 5 and a single peer left at step 4 (the peer that was at step 5 has
    expired from the store), a snapshot is emitted for step 4. *)
Lemma snapshot_on_step_decrease :
  let st := monitor_at 5 in
  let env := answers (Some [("p1"%string, peer 4 1 2)]) 0%Q in
  let o := tick parse_payload args_no_checkpoints env st in
  comprehension parse_payload (map snd [("p1"%string, peer 4 1 2)])
    = Ret [record 4 1 2] /\
  py_max (map LocalMetrics.step [record 4 1 2]) = Ret 4 /\
  emits_snapshot (events o) = true /\
  In (EvInfoStep 4 (float_div (nearest_float 1) (nearest_float 2))) (events o) /\
  current_step (final o) = 4 /\
  ~ (current_step st < 4).
Proof. vm_compute. repeat split; auto 10. intros H; discriminate H. Qed.

(** Scenario B as an instance of the theorem: the two records at step 5
    against a held step of 5. *)
Lemma snapshot_only_when_step_differs_witness :
  dht_get (answers (Some two_peers_at_5) 0%Q) = Ret (Some two_peers_at_5) /\
  two_peers_at_5 <> [] /\
  (let o := tick parse_payload args_no_checkpoints
              (answers (Some two_peers_at_5) 0%Q) (monitor_at 5) in
   emits_snapshot (events o) = false /\ final o = monitor_at 5).
Proof.
  split; [reflexivity|]. split; [discriminate|].
  destruct (snapshot_only_when_step_differs string Payload parse_payload
              args_no_checkpoints (answers (Some two_peers_at_5) 0%Q) (monitor_at 5)
              two_peers_at_5 [record 5 1 2; record 5 3 2])
    as (mx & Hmx & _ & Htie & _).
  - reflexivity.
  - discriminate.
  - reflexivity.
  - apply Htie. vm_compute in Hmx. now inversion Hmx.
Defined.

(** ** C2: the reported loss *)

Lemma float_add_nan_l (x : float) : float_add S754_nan x = S754_nan.
Proof. reflexivity. Qed.










(** ** C3: mini-steps that sum to zero *)

(** C3.  The division of line 206 is not guarded.  When the largest peer
    step differs from the held step and the mini-steps of the records sum to
    zero, the iteration ends in [ZeroDivisionError]: the held step has already
    been overwritten (line 193), no snapshot is emitted, and the iteration
    reaches neither the sleep nor [hmp.step]. *)
Theorem zero_mini_steps_raise_zero_division :
  forall (PeerId Raw : Type) (parse_obj : Raw -> res LocalMetrics.t)
         (monitor_args : TrainingMonitorArguments.t)
         (env : TickEnv PeerId Raw) (st : Monitor)
         (d : list (PeerId * Raw)) (ms : list LocalMetrics.t) (latest_step : Z),
    dht_get env = Ret (Some d) ->
    comprehension parse_obj (map snd d) = Ret ms ->
    py_max (map LocalMetrics.step ms) = Ret latest_step ->
    latest_step <> current_step st ->
    total_mini_steps ms = 0 ->
    let o := tick parse_obj monitor_args env st in
    result o = Raise ZeroDivisionError /\
    current_step (final o) = latest_step /\
    monitor_metrics (final o) = monitor_metrics st /\
    emits_snapshot (events o) = false /\
    sleeps (events o) = false /\
    calls_hmp_step (events o) = false.
Proof.
  intros PeerId Raw parse_obj monitor_args env st d ms mx Hget Hdec Hmax Hne Hz o.
  subst o. tick_paths parse_obj monitor_args env st; try absurd_path.
  observe. repeat split; reflexivity.
Qed.

(** One peer at step 1 that reports no mini-step, against the held step 0 of
    a monitor that has just started. *)
Lemma zero_mini_steps_raise_zero_division_witness :
  let env := answers (Some [("p1"%string, peer 1 0 0)]) 0%Q in
  let st := startup args_no_checkpoints 0%Q in
  let o := tick parse_payload args_no_checkpoints env st in
  total_mini_steps [record 1 0 0] = 0 /\
  result o = Raise ZeroDivisionError /\
  sleeps (events o) = false.
Proof.
  intros env st o. split; [reflexivity|].
  destruct (zero_mini_steps_raise_zero_division string Payload parse_payload
              args_no_checkpoints env st [("p1"%string, peer 1 0 0)]
              [record 1 0 0] 1)
    as (Hr & _ & _ & _ & Hs & _).
  - reflexivity.
  - reflexivity.
  - reflexivity.
  - discriminate.
  - reflexivity.
  - split; [exact Hr|exact Hs].
Defined.

(** ** C8: no mapping, or an empty one *)

(** C8.  When the store returns nothing ([None]) the iteration emits no
    snapshot, raises nothing, leaves the state as it was and goes to sleep.
    When the store returns an empty mapping the guard of line 182 lets it
    through and [max] of line 185 raises [ValueError] on the empty sequence:
    the iteration ends there, before the sleep. *)
Theorem empty_mapping_raises_value_error :
  forall (PeerId Raw : Type) (parse_obj : Raw -> res LocalMetrics.t)
         (monitor_args : TrainingMonitorArguments.t)
         (env : TickEnv PeerId Raw) (st : Monitor),
    let o := tick parse_obj monitor_args env st in
    (dht_get env = Ret None ->
       result o = Ret tt /\ final o = st /\
       emits_snapshot (events o) = false /\ sleeps (events o) = true) /\
    (dht_get env = Ret (Some []) ->
       result o = Raise ValueError /\ final o = st /\
       emits_snapshot (events o) = false /\ sleeps (events o) = false /\
       events o = [EvDhtGet]).
Proof.
  intros PeerId Raw parse_obj monitor_args env st o. subst o.
  split; intros Hget; tick_paths parse_obj monitor_args env st;
    try absurd_path; observe; repeat split; reflexivity.
Qed.

(** The store of a running monitor returns the empty mapping. *)
Lemma empty_mapping_raises_value_error_witness :
  let env := answers (Some []) 0%Q in
  let o := tick parse_payload args_no_checkpoints env (monitor_at 5) in
  dht_get env = Ret (Some []) /\
  result o = Raise ValueError /\
  sleeps (events o) = false.
Proof.
  intros env o. split; [reflexivity|].
  destruct (proj2 (empty_mapping_raises_value_error string Payload parse_payload
                     args_no_checkpoints env (monitor_at 5)))
    as (Hr & _ & _ & Hs & _).
  - reflexivity.
  - split; [exact Hr|exact Hs].
Defined.

(** ** C4: when the state is saved *)

(** C4.  [is_time_to_save_state] answers true exactly when an interval is set
    and [cur_step - previous_step] has reached it; it changes nothing.  A
    state pull that returns sets [previous_step] to the step it was called
    with.  In the loop, whatever the state: the state pull is called only if
    the new global step is at least one interval past [previous_step]; when a
    snapshot is emitted and checkpoints are on, it is called exactly in that
    case; and after a pull that returns, [previous_step] is the global step.
    Scenario C: interval 10, last save at step 0; step 9 triggers no save,
    step 10 triggers one and [previous_step] becomes 10. *)
Theorem save_cadence :
  (forall (h : CheckpointHandler.t) (cur_step : Z),
      exists b,
        CheckpointHandler.is_time_to_save_state cur_step h
          = (Ret b, h, [EvIsTimeToSaveState cur_step]) /\
        (b = true <->
         exists interval,
           CheckpointHandler.save_checkpoint_step_interval h = Some interval /\
           interval <= cur_step - CheckpointHandler.previous_step h)) /\
  (forall (h : CheckpointHandler.t) (cur_step : Z),
      let o := CheckpointHandler.save_state (Ret tt) cur_step h in
      result o = Ret tt /\ CheckpointHandler.previous_step (final o) = cur_step) /\
  (forall (PeerId Raw : Type) (parse_obj : Raw -> res LocalMetrics.t)
          (monitor_args : TrainingMonitorArguments.t)
          (env : TickEnv PeerId Raw) (st : Monitor)
          (h : CheckpointHandler.t) (interval : Z),
      checkpoint_handler st = Some h ->
      CheckpointHandler.save_checkpoint_step_interval h = Some interval ->
      let o := tick parse_obj monitor_args env st in
      (pulls_state (events o) = true ->
         interval <= current_step (final o) - CheckpointHandler.previous_step h) /\
      (emits_snapshot (events o) = true ->
       TrainingMonitorArguments.store_checkpoints monitor_args = true ->
       interval <= current_step (final o) - CheckpointHandler.previous_step h ->
         pulls_state (events o) = true) /\
      (pulls_state (events o) = true ->
       load_state_from_peers env = Ret tt ->
         exists h',
           checkpoint_handler (final o) = Some h' /\
           CheckpointHandler.previous_step h' = current_step (final o))) /\
  (result (CheckpointHandler.is_time_to_save_state 9 handler_scenario_c) = Ret false /\
   result (CheckpointHandler.is_time_to_save_state 10 handler_scenario_c) = Ret true /\
   CheckpointHandler.previous_step
     (final (CheckpointHandler.save_state (Ret tt) 10 handler_scenario_c)) = 10 /\
   (let o := tick parse_payload (args_checkpoints 10 3600%Q)
               (answers (Some [("p1"%string, peer 9 1 1)]) 60%Q) monitor_scenario_c in
    emits_snapshot (events o) = true /\
    pulls_state (events o) = false /\
    checkpoint_handler (final o) = Some handler_scenario_c) /\
   (let o := tick parse_payload (args_checkpoints 10 3600%Q)
               (answers (Some [("p1"%string, peer 10 1 1)]) 60%Q) monitor_scenario_c in
    pulls_state (events o) = true /\
    checkpoint_handler (final o)
      = Some (CheckpointHandler.set_previous_step handler_scenario_c 10))).
Proof.
  split; [|split; [|split]].
  - intros h cur_step.
    unfold CheckpointHandler.is_time_to_save_state. rewrite bind_emit, bind_get.
    destruct (CheckpointHandler.save_checkpoint_step_interval h) as [interval|].
    + destruct (Z.leb_spec interval (cur_step - CheckpointHandler.previous_step h)).
      * exists true; split; [reflexivity|]. split; eauto.
      * exists false; split; [reflexivity|]. split; [discriminate|].
        intros (i & Hi & Hle); inversion Hi; lia.
    + exists false; split; [reflexivity|]. split; [discriminate|].
      intros (i & Hi & _); discriminate.
  - intros h cur_step; split; reflexivity.
  - intros PeerId Raw parse_obj monitor_args env st h interval Hh Hi o. subst o.
    tick_paths parse_obj monitor_args env st; try absurd_path;
      try checkpoint_paths; observe;
      (split; [|split]); intros; try congruence; try lia;
      eexists; split; reflexivity.
  - vm_compute. repeat split.
Qed.

(** Scenario C as an instance of the statement about the loop. *)
Lemma save_cadence_witness :
  let env := answers (Some [("p1"%string, peer 10 1 1)]) 60%Q in
  let o := tick parse_payload (args_checkpoints 10 3600%Q) env monitor_scenario_c in
  checkpoint_handler monitor_scenario_c = Some handler_scenario_c /\
  CheckpointHandler.save_checkpoint_step_interval handler_scenario_c = Some 10 /\
  pulls_state (events o) = true /\
  load_state_from_peers env = Ret tt /\
  10 <= current_step (final o) - CheckpointHandler.previous_step handler_scenario_c /\
  exists h',
    checkpoint_handler (final o) = Some h' /\
    CheckpointHandler.previous_step h' = current_step (final o).
Proof.
  intros env o.
  destruct (proj1 (proj2 (proj2 save_cadence)) string Payload parse_payload
              (args_checkpoints 10 3600%Q) env monitor_scenario_c handler_scenario_c 10
              eq_refl eq_refl) as (Hle & _ & Hset).
  do 4 (split; [reflexivity|]).
  split; [apply Hle; reflexivity|apply Hset; reflexivity].
Defined.

(** ** C5: when the upload is considered *)

(** C5.  In the loop, whatever the state and whatever the configuration:
    the clock is read (the upload check is evaluated) only in an iteration
    whose state pull has returned, the first clock read comes right after that
    pull, and [previous_step] is by then the global step; conversely a state
    pull that returns is always followed by the check; an iteration without a
    state pull reads no clock and exports nothing, and nothing is exported
    without the check.  [is_time_to_upload] answers true exactly when
    [now - previous_timestamp] has reached the upload interval, and with no
    interval set it raises [TypeError].  The loop calls the export exactly
    when the check was evaluated, an interval is set and
    [time.time() - previous_timestamp] has reached it; with no interval set
    the check ends the iteration in [TypeError] and nothing is exported. *)
Theorem upload_cadence :
  (forall (PeerId Raw : Type) (parse_obj : Raw -> res LocalMetrics.t)
          (monitor_args : TrainingMonitorArguments.t)
          (env : TickEnv PeerId Raw) (st : Monitor),
      let o := tick parse_obj monitor_args env st in
      (reads_clock (events o) = true ->
         load_state_from_peers env = Ret tt /\
         (exists pre post,
             events o = pre ++ EvLoadState :: EvTime (time_check env) :: post /\
             reads_clock pre = false /\ pulls_state pre = false) /\
         (exists h',
             checkpoint_handler (final o) = Some h' /\
             CheckpointHandler.previous_step h' = current_step (final o))) /\
      (pulls_state (events o) = false ->
         reads_clock (events o) = false /\ exports (events o) = false) /\
      (pulls_state (events o) = true ->
       load_state_from_peers env = Ret tt ->
         reads_clock (events o) = true) /\
      (exports (events o) = true -> reads_clock (events o) = true)) /\
  (forall (h : CheckpointHandler.t) (now : Q),
      (forall upload,
          CheckpointHandler.upload_interval h = Some upload ->
          exists b,
            CheckpointHandler.is_time_to_upload now h = (Ret b, h, [EvTime now]) /\
            (b = true <-> (upload <= now - CheckpointHandler.previous_timestamp h)%Q)) /\
      (CheckpointHandler.upload_interval h = None ->
         CheckpointHandler.is_time_to_upload now h = (Raise TypeError, h, [EvTime now]))) /\
  (forall (PeerId Raw : Type) (parse_obj : Raw -> res LocalMetrics.t)
          (monitor_args : TrainingMonitorArguments.t)
          (env : TickEnv PeerId Raw) (st : Monitor) (h : CheckpointHandler.t),
      checkpoint_handler st = Some h ->
      let o := tick parse_obj monitor_args env st in
      (exports (events o) = true <->
       reads_clock (events o) = true /\
       exists upload,
         CheckpointHandler.upload_interval h = Some upload /\
         (upload <= time_check env - CheckpointHandler.previous_timestamp h)%Q) /\
      (CheckpointHandler.upload_interval h = None ->
       reads_clock (events o) = true ->
         result o = Raise TypeError /\ exports (events o) = false)).
Proof.
  split; [|split].
  - intros PeerId Raw parse_obj monitor_args env st o. subst o.
    tick_paths parse_obj monitor_args env st; try checkpoint_inversion;
      (split; [intros Hclock|split; [intros Hpull|split; [intros Hpull Hload|intros Hexp]]]);
      try solve [exfalso; observe; discriminate];
      try solve [exfalso; observe; congruence];
      try solve [observe; reflexivity];
      try solve [observe; split; reflexivity];
      (split; [assumption|]);
      (split;
       [match goal with
        | |- context [debug_lines ?ms ++ EvInfoStep ?s ?l :: _] =>
            exists (EvDhtGet :: debug_lines ms
                      ++ [EvInfoStep s l; EvIsTimeToSaveState s; EvInfoSaving])
        end;
        eexists; split;
        [unfold events; simpl; rewrite <- app_assoc; reflexivity
        |observe; split; reflexivity]
       |eexists; split; reflexivity]).
  - intros h now. split.
    + intros upload Hu.
      unfold CheckpointHandler.is_time_to_upload. rewrite bind_emit, bind_get, Hu.
      destruct (Qle_bool upload (now - CheckpointHandler.previous_timestamp h)) eqn:Hq.
      * exists true; split; [reflexivity|]. split; [intros _|reflexivity].
        now apply Qle_bool_iff.
      * exists false; split; [reflexivity|]. split; [discriminate|].
        intros Hle; apply Qle_bool_iff in Hle; congruence.
    + intros Hu.
      unfold CheckpointHandler.is_time_to_upload. rewrite bind_emit, bind_get, Hu.
      reflexivity.
  - intros PeerId Raw parse_obj monitor_args env st h Hh o. subst o.
    tick_paths parse_obj monitor_args env st; try absurd_path;
      try checkpoint_paths; observe;
      (split;
       [split;
        [intros Hexp;
         first [ discriminate Hexp
               | split; [reflexivity|eexists; split; [eassumption|assumption]] ]
        |intros (Hclock & u & Hu & Hle);
         first [ discriminate Hclock
               | reflexivity
               | exfalso; same_inputs; first [congruence|contradiction] ] ]
       |intros Hnone Hclock;
        first [discriminate Hclock | congruence | split; reflexivity] ]).
Qed.

(** An iteration of scenario C's monitor at step 10, one hour and more after
    the last upload: the state is saved and the upload is due. *)
Lemma upload_cadence_witness :
  let env := answers (Some [("p1"%string, peer 10 1 1)]) 4000%Q in
  let o := tick parse_payload (args_checkpoints 10 3600%Q) env monitor_scenario_c in
  checkpoint_handler monitor_scenario_c = Some handler_scenario_c /\
  pulls_state (events o) = true /\
  load_state_from_peers env = Ret tt /\
  reads_clock (events o) = true /\
  (exports (events o) = true <->
   reads_clock (events o) = true /\
   exists upload,
     CheckpointHandler.upload_interval handler_scenario_c = Some upload /\
     (upload <= time_check env - CheckpointHandler.previous_timestamp handler_scenario_c)%Q).
Proof.
  intros env o.
  do 3 (split; [reflexivity|]).
  split.
  - apply (proj1 (proj2 (proj2 (proj1 upload_cadence string Payload parse_payload
                                  (args_checkpoints 10 3600%Q) env monitor_scenario_c))));
      reflexivity.
  - apply (proj1 (proj2 (proj2 upload_cadence) string Payload parse_payload
                    (args_checkpoints 10 3600%Q) env monitor_scenario_c handler_scenario_c
                    eq_refl)).
Defined.

(** ** C6: a failed attempt leaves the bookkeeping alone *)

(** C6.  Failure is an exception raised by the call.  [save_state] whose
    state pull raises leaves the handler as it was, [previous_step] included;
    [upload_checkpoint] whose export raises leaves the handler as it was,
    [previous_timestamp] included.  In the loop: an iteration whose state pull
    raises ends with that exception and with the handler it started with; an
    iteration whose export raises ends with that exception and with the
    [previous_timestamp] it started with. *)
Theorem failed_attempt_keeps_bookkeeping :
  (forall (h : CheckpointHandler.t) (cur_step : Z) (e : exn),
      CheckpointHandler.save_state (Raise e) cur_step h
        = (Raise e, h, [EvInfoSaving; EvLoadState])) /\
  (forall (h : CheckpointHandler.t) (now : Q) (current_loss : float) (e : exn),
      CheckpointHandler.upload_checkpoint (Raise e) now current_loss h
        = (Raise e, h, [EvSavePretrained])) /\
  (forall (PeerId Raw : Type) (parse_obj : Raw -> res LocalMetrics.t)
          (monitor_args : TrainingMonitorArguments.t)
          (env : TickEnv PeerId Raw) (st : Monitor)
          (h : CheckpointHandler.t) (e : exn),
      checkpoint_handler st = Some h ->
      let o := tick parse_obj monitor_args env st in
      (pulls_state (events o) = true ->
       load_state_from_peers env = Raise e ->
         result o = Raise e /\ checkpoint_handler (final o) = Some h) /\
      (exports (events o) = true ->
       save_pretrained env = Raise e ->
         result o = Raise e /\
         exists h',
           checkpoint_handler (final o) = Some h' /\
           CheckpointHandler.previous_timestamp h'
             = CheckpointHandler.previous_timestamp h)).
Proof.
  split; [|split].
  - intros h cur_step e; reflexivity.
  - intros h now current_loss e; reflexivity.
  - intros PeerId Raw parse_obj monitor_args env st h e Hh o. subst o.
    tick_paths parse_obj monitor_args env st; try absurd_path;
      try checkpoint_paths; observe;
      (split; intros Hcall Hfail); try discriminate; try congruence;
      repeat split; try congruence;
      eexists; split; reflexivity.
Qed.

(** Scenario C's monitor at step 10 when the state pull times out. *)
Lemma failed_attempt_keeps_bookkeeping_witness :
  let env : Env :=
    {| dht_get := Ret (Some [("p1"%string, peer 10 1 1)]);
       load_state_from_peers := Raise TimeoutError;
       time_check := 60%Q;
       save_pretrained := Ret tt;
       time_upload := 60%Q |} in
  let o := tick parse_payload (args_checkpoints 10 3600%Q) env monitor_scenario_c in
  checkpoint_handler monitor_scenario_c = Some handler_scenario_c /\
  pulls_state (events o) = true /\
  load_state_from_peers env = Raise TimeoutError /\
  result o = Raise TimeoutError /\
  checkpoint_handler (final o) = Some handler_scenario_c.
Proof.
  intros env o.
  do 3 (split; [reflexivity|]).
  apply (proj1 (proj2 (proj2 failed_attempt_keeps_bookkeeping) string Payload
                  parse_payload (args_checkpoints 10 3600%Q) env monitor_scenario_c
                  handler_scenario_c TimeoutError eq_refl)); reflexivity.
Defined.

(** ** C7: errors inside an iteration *)

Lemma run_stops_at_exception {PeerId Raw} (parse_obj : Raw -> res LocalMetrics.t)
    (monitor_args : TrainingMonitorArguments.t)
    (env : TickEnv PeerId Raw) (envs : list (TickEnv PeerId Raw)) (st : Monitor) (e : exn) :
  result (tick parse_obj monitor_args env st) = Raise e ->
  run parse_obj monitor_args (env :: envs) st = tick parse_obj monitor_args env st.
Proof.
  intros Hr. simpl run. rewrite bind_eq.
  destruct (tick parse_obj monitor_args env st) as [[[[]|e'] st'] evs];
    [discriminate Hr|reflexivity].
Qed.

(** C7, as amended.  The loop has no handler for exceptions.  An iteration
    reaches the sleep exactly when it raises nothing, and an iteration that
    raises is the last one: the loop does not go on to the next answers.  A
    store that answers nothing ([None]) is no new data: the state is kept and
    the iteration sleeps.  A store read that raises, a payload that does not
    decode, a state pull that raises and an export that raises each end the
    iteration with that exception; with a payload that does not decode, no
    record at all is aggregated and the state is as it was. *)
Theorem errors_end_the_loop :
  forall (PeerId Raw : Type) (parse_obj : Raw -> res LocalMetrics.t)
         (monitor_args : TrainingMonitorArguments.t)
         (env : TickEnv PeerId Raw) (st : Monitor),
    let o := tick parse_obj monitor_args env st in
    (result o = Ret tt <-> sleeps (events o) = true) /\
    (forall e envs,
        result o = Raise e ->
        sleeps (events o) = false /\ calls_hmp_step (events o) = false /\
        run parse_obj monitor_args (env :: envs) st = o) /\
    (dht_get env = Ret None ->
       result o = Ret tt /\ final o = st /\ emits_snapshot (events o) = false) /\
    (forall e, dht_get env = Raise e -> o = (Raise e, st, [EvDhtGet])) /\
    (forall d e,
        dht_get env = Ret (Some d) ->
        comprehension parse_obj (map snd d) = Raise e ->
        o = (Raise e, st, [EvDhtGet])) /\
    (forall e,
        pulls_state (events o) = true ->
        load_state_from_peers env = Raise e ->
        result o = Raise e) /\
    (forall e,
        exports (events o) = true ->
        save_pretrained env = Raise e ->
        result o = Raise e).
Proof.
  intros PeerId Raw parse_obj monitor_args env st o.
  split; [|split; [|split; [|split; [|split; [|split]]]]].
  - subst o. tick_paths parse_obj monitor_args env st; try checkpoint_inversion;
      observe; split; intros; congruence.
  - intros e envs Hr.
    split; [|split; [|subst o; now apply run_stops_at_exception with e]].
    + subst o. revert Hr. tick_paths parse_obj monitor_args env st;
        try checkpoint_inversion; observe; intros; congruence.
    + subst o. revert Hr. tick_paths parse_obj monitor_args env st;
        try checkpoint_inversion; observe; intros; congruence.
  - intros Hget. subst o. tick_paths parse_obj monitor_args env st;
      try absurd_path. observe; repeat split; reflexivity.
  - intros e Hget. subst o. tick_paths parse_obj monitor_args env st;
      absurd_path.
  - intros d e Hget Hdec. subst o. tick_paths parse_obj monitor_args env st;
      absurd_path.
  - intros e. subst o. tick_paths parse_obj monitor_args env st;
      try checkpoint_inversion; observe; intros; congruence.
  - intros e. subst o. tick_paths parse_obj monitor_args env st;
      try checkpoint_inversion; observe; intros; congruence.
Qed.

(** The claim as first stated has a malformed record skipped and the others
    aggregated.  With a malformed payload next to a well-formed one at step 6,
    against a held step of 5: the iteration raises [ValidationError], nothing
    is aggregated, the sleep is not reached and the loop does not go on to the
    next answers, although the well-formed record alone yields a snapshot. *)
Lemma malformed_record_ends_the_loop :
  let env := answers (Some [("p1"%string, Malformed); ("p2"%string, peer 6 1 1)]) 0%Q in
  let next := answers (Some [("p2"%string, peer 7 1 1)]) 30%Q in
  let o := tick parse_payload args_no_checkpoints env (monitor_at 5) in
  result o = Raise ValidationError /\
  final o = monitor_at 5 /\
  emits_snapshot (events o) = false /\
  sleeps (events o) = false /\
  run parse_payload args_no_checkpoints [env; next] (monitor_at 5) = o /\
  emits_snapshot
    (events (tick parse_payload args_no_checkpoints
               (answers (Some [("p2"%string, peer 6 1 1)]) 0%Q) (monitor_at 5))) = true.
Proof. vm_compute. repeat split. Qed.

(** A store read that times out, as an instance of the theorem. *)
Lemma errors_end_the_loop_witness :
  let env : Env :=
    {| dht_get := Raise TimeoutError;
       load_state_from_peers := Ret tt;
       time_check := 0%Q;
       save_pretrained := Ret tt;
       time_upload := 0%Q |} in
  let o := tick parse_payload args_no_checkpoints env (monitor_at 5) in
  dht_get env = Raise TimeoutError /\
  o = (Raise TimeoutError, monitor_at 5, [EvDhtGet]) /\
  run parse_payload args_no_checkpoints [env; answers None 30%Q] (monitor_at 5) = o.
Proof.
  intros env o.
  destruct (errors_end_the_loop string Payload parse_payload args_no_checkpoints env
              (monitor_at 5)) as (_ & Hstop & _ & Hget & _).
  split; [reflexivity|]. split.
  - apply Hget; reflexivity.
  - apply (Hstop TimeoutError [answers None 30%Q]); reflexivity.
Defined.

(** ** C10: the monitor starts at step 0 *)

Lemma idle_events_unobserved (p : event -> bool) (evs : list event) :
  (forall e, idle_at_zero e = true -> p e = false) ->
  forallb idle_at_zero evs = true ->
  existsb p evs = false.
Proof.
  intros Hp; induction evs as [|e evs IH]; simpl; [easy|].
  intros H; apply andb_true_iff in H; destruct H as [He Hevs].
  now rewrite (Hp e He), IH.
Qed.

Lemma idle_hmp_step (evs : list event) (s : Z) (mm : option MonitorMetrics.t) :
  forallb idle_at_zero evs = true ->
  In (EvHmpStep s mm) evs ->
  s = 0 /\ mm = None.
Proof.
  intros Hall Hin.
  pose proof (proj1 (forallb_forall _ _) Hall _ Hin) as H; simpl in H.
  destruct mm; [discriminate|]. split; [lia|reflexivity].
Qed.

Section StartAtZero.

Variable PeerId : Type.
Variable Raw : Type.
Variable parse_obj : Raw -> res LocalMetrics.t.
Variable monitor_args : TrainingMonitorArguments.t.

Lemma max_of_zero_steps (ms : list LocalMetrics.t) (mx : Z) :
  Forall (fun m => LocalMetrics.step m = 0) ms ->
  py_max (map LocalMetrics.step ms) = Ret mx ->
  mx = 0.
Proof.
  intros Hall Hmax. apply py_max_spec in Hmax. destruct Hmax as [Hin _].
  apply in_map_iff in Hin. destruct Hin as (m & <- & Hm).
  exact (proj1 (Forall_forall _ _) Hall m Hm).
Qed.

Lemma tick_idle (env : TickEnv PeerId Raw) (st : Monitor) :
  current_step st = 0 ->
  monitor_metrics st = None ->
  all_at_zero parse_obj env ->
  final (tick parse_obj monitor_args env st) = st /\
  forallb idle_at_zero (events (tick parse_obj monitor_args env st)) = true.
Proof.
  intros Hstep Hmm Hzero.
  tick_paths parse_obj monitor_args env st;
    try solve [unfold final, events, closing_events; simpl; rewrite ?Hstep, ?Hmm;
               split; reflexivity];
    exfalso;
    match goal with
    | Hg : dht_get env = Ret (Some ?d), Hd : comprehension _ _ = Ret ?ms,
      Hm : py_max _ = Ret ?mx |- _ =>
        pose proof (max_of_zero_steps ms mx (Hzero d ms Hg Hd) Hm)
    end; congruence.
Qed.

Lemma run_idle (envs : list (TickEnv PeerId Raw)) (st : Monitor) :
  current_step st = 0 ->
  monitor_metrics st = None ->
  Forall (all_at_zero parse_obj) envs ->
  final (run parse_obj monitor_args envs st) = st /\
  forallb idle_at_zero (events (run parse_obj monitor_args envs st)) = true.
Proof.
  intros Hstep Hmm Hall. induction Hall as [|env envs Henv Henvs IH].
  - split; reflexivity.
  - simpl run. rewrite bind_eq.
    destruct (tick_idle env st Hstep Hmm Henv) as [Hfin Hev].
    destruct (tick parse_obj monitor_args env st) as [[[[]|e] st'] evs];
      unfold final, events in Hfin, Hev; simpl in Hfin, Hev; subst st'.
    + destruct IH as [IHfin IHev].
      destruct (run parse_obj monitor_args envs st) as [[r st''] evs'].
      unfold final, events in *; simpl in *.
      split; [assumption|]. rewrite forallb_app, Hev. exact IHev.
    + split; [reflexivity|exact Hev].
Qed.

End StartAtZero.

(** C10.  The monitor starts with [current_step] 0.  Run from the start for
    any number of iterations in which every decoded record is at step 0, it
    ends in the state it started in: the step is 0 and no metrics were ever
    stored; no snapshot was emitted (no loss was logged), no call of the
    checkpoint handler left the process, and every call of [hmp.step] carried
    step 0 and the empty metrics.  And from a held step of 0, an iteration
    that emits a snapshot has seen a largest peer step other than 0, which is
    the step it then holds. *)
Theorem no_report_while_steps_are_zero :
  (forall (PeerId Raw : Type) (parse_obj : Raw -> res LocalMetrics.t)
          (monitor_args : TrainingMonitorArguments.t) (now : Q)
          (envs : list (TickEnv PeerId Raw)),
      Forall (fun env =>
                forall d ms,
                  dht_get env = Ret (Some d) ->
                  comprehension parse_obj (map snd d) = Ret ms ->
                  Forall (fun m => LocalMetrics.step m = 0) ms) envs ->
      let o := run parse_obj monitor_args envs (startup monitor_args now) in
      final o = startup monitor_args now /\
      current_step (final o) = 0 /\
      monitor_metrics (final o) = None /\
      emits_snapshot (events o) = false /\
      touches_checkpoints (events o) = false /\
      (forall s mm, In (EvHmpStep s mm) (events o) -> s = 0 /\ mm = None)) /\
  (forall (PeerId Raw : Type) (parse_obj : Raw -> res LocalMetrics.t)
          (monitor_args : TrainingMonitorArguments.t)
          (env : TickEnv PeerId Raw) (st : Monitor),
      current_step st = 0 ->
      let o := tick parse_obj monitor_args env st in
      emits_snapshot (events o) = true ->
      exists d ms latest_step,
        dht_get env = Ret (Some d) /\
        comprehension parse_obj (map snd d) = Ret ms /\
        py_max (map LocalMetrics.step ms) = Ret latest_step /\
        latest_step <> 0 /\
        current_step (final o) = latest_step).
Proof.
  split.
  - intros PeerId Raw parse_obj monitor_args now envs Hall o.
    destruct (run_idle PeerId Raw parse_obj monitor_args envs (startup monitor_args now)
                eq_refl eq_refl Hall) as [Hfin Hev].
    fold o in Hfin, Hev. rewrite Hfin.
    split; [reflexivity|]. split; [reflexivity|]. split; [reflexivity|].
    split; [|split].
    + apply idle_events_unobserved; [|exact Hev].
      intros [] He; try reflexivity; discriminate He.
    + apply idle_events_unobserved; [|exact Hev].
      intros [] He; try reflexivity; discriminate He.
    + intros s mm; now apply idle_hmp_step.
  - intros PeerId Raw parse_obj monitor_args env st Hstep o. subst o.
    tick_paths parse_obj monitor_args env st; intros Hemit;
      try solve [exfalso; observe; discriminate];
      match goal with
      | H : checkpoint_path _ _ _ _ _ |- _ =>
          destruct (checkpoint_path_keeps_report _ _ _ _ _ H) as (Hc & _)
      end;
      do 3 eexists; repeat (split; [eassumption|]);
      (split; [congruence|exact Hc]).
Qed.

(** Three iterations after the start: no peers yet, then one peer at step 0,
    twice. *)
Lemma no_report_while_steps_are_zero_witness :
  let envs := [answers None 0%Q;
               answers (Some [("p1"%string, peer 0 1 1)]) 30%Q;
               answers (Some [("p1"%string, peer 0 2 3)]) 60%Q] in
  let o := run parse_payload (args_checkpoints 5 3600%Q) envs
             (startup (args_checkpoints 5 3600%Q) 0%Q) in
  result o = Ret tt /\
  sleeps (events o) = true /\
  emits_snapshot (events o) = false /\
  touches_checkpoints (events o) = false.
Proof.
  intros envs o.
  split; [reflexivity|]. split; [reflexivity|].
  destruct (proj1 no_report_while_steps_are_zero string Payload parse_payload
              (args_checkpoints 5 3600%Q) 0%Q envs) as (_ & _ & _ & He & Hc & _).
  - repeat constructor; intros d ms Hd Hms;
      inversion Hd; subst; inversion Hms; subst; repeat constructor.
  - split; assumption.
Defined.

(** * Further properties of the loop and of the handler *)

(** ** Decoding the mapping (line 184) *)

(** X1.  The list comprehension of line 184 returns a list exactly when
    every payload decodes, and then the records are the decoded payloads, one
    for one and in the order of the mapping.  It raises [e] exactly when some
    payload raises [e] while every payload before it decodes: the leftmost
    payload that fails decides the exception, whatever follows it. *)
Theorem comprehension_all_or_leftmost_failure :
  forall (A B : Type) (f : A -> res B) (xs : list A),
    (forall ys,
        comprehension f xs = Ret ys <-> Forall2 (fun x y => f x = Ret y) xs ys) /\
    (forall e,
        comprehension f xs = Raise e <->
        exists pre x post,
          xs = pre ++ x :: post /\
          Forall (fun a => exists b, f a = Ret b) pre /\
          f x = Raise e).
Proof.
  intros A B f xs; induction xs as [|x xs [IHret IHraise]]; split.
  - intros ys; simpl; split; intros H.
    + inversion H; constructor.
    + inversion H; reflexivity.
  - intros e; simpl; split; [discriminate|].
    intros (pre & x & post & E & _); destruct pre; discriminate E.
  - intros ys; simpl; split; intros H.
    + destruct (f x) as [y|e] eqn:Hx; [|discriminate].
      destruct (comprehension f xs) as [ys'|e] eqn:Hxs; [|discriminate].
      inversion H; subst. constructor; [assumption|]. now apply IHret.
    + inversion H as [|x' y xs' ys' Hx Hrest]; subst.
      rewrite Hx. apply IHret in Hrest. now rewrite Hrest.
  - intros e; simpl; split; intros H.
    + destruct (f x) as [y|e'] eqn:Hx.
      * destruct (comprehension f xs) as [ys'|e''] eqn:Hxs; [discriminate|].
        inversion H; subst.
        destruct (proj1 (IHraise e) eq_refl) as (pre & x0 & post & E & Hpre & Hx0).
        exists (x :: pre), x0, post; subst xs.
        split; [reflexivity|]. split; [|assumption].
        constructor; [now exists y|assumption].
      * inversion H; subst.
        exists [], x, xs. split; [reflexivity|]. split; [apply Forall_nil|assumption].
    + destruct H as (pre & x0 & post & E & Hpre & Hx0).
      destruct pre as [|a pre]; simpl in E; inversion E; subst.
      * now rewrite Hx0.
      * inversion Hpre as [|? ? [b Hb] Hpre']; subst. rewrite Hb.
        assert (Hr : comprehension f (pre ++ x0 :: post) = Raise e)
          by (apply IHraise; exists pre, x0, post; auto).
        now rewrite Hr.
Qed.

(** A mapping whose second payload is malformed: the third is never looked at. *)
Lemma comprehension_all_or_leftmost_failure_witness :
  Forall (fun a => exists b, parse_payload a = Ret b) [peer 5 1 2] /\
  parse_payload Malformed = Raise ValidationError /\
  comprehension parse_payload [peer 5 1 2; Malformed; peer 6 1 1]
    = Raise ValidationError.
Proof.
  assert (Hpre : Forall (fun a => exists b, parse_payload a = Ret b) [peer 5 1 2])
    by (repeat constructor; eexists; reflexivity).
  split; [exact Hpre|]. split; [reflexivity|].
  apply (proj2 (comprehension_all_or_leftmost_failure Payload LocalMetrics.t parse_payload
                  [peer 5 1 2; Malformed; peer 6 1 1])).
  exists [peer 5 1 2], Malformed, [peer 6 1 1].
  split; [reflexivity|]. split; [exact Hpre|reflexivity].
Defined.

(** ** What depends on the order of the peers, and what does not
       (lines 185 and 194-206) *)

Lemma fold_sums_samples (ms : list LocalMetrics.t) (acc : Sums) :
  num_samples (fold_left sums_add ms acc) = num_samples acc + total_samples ms.
Proof.
  revert acc; induction ms as [|m ms IH]; intros acc; simpl; [lia|].
  rewrite IH; simpl; lia.
Qed.

Lemma fold_sums_perf (ms : list LocalMetrics.t) (acc : Sums) :
  sum_perf (fold_left sums_add ms acc)
  = fold_left float_add (map LocalMetrics.samples_per_second ms) (sum_perf acc).
Proof.
  revert acc; induction ms as [|m ms IH]; intros acc; [reflexivity|].
  change (fold_left sums_add (m :: ms) acc) with (fold_left sums_add ms (sums_add acc m)).
  rewrite IH. reflexivity.
Qed.

Lemma sum_metrics_samples (ms : list LocalMetrics.t) :
  num_samples (sum_metrics ms) = total_samples ms.
Proof. unfold sum_metrics; now rewrite fold_sums_samples. Qed.

Lemma sum_metrics_perf (ms : list LocalMetrics.t) :
  sum_perf (sum_metrics ms) = float_sum (map LocalMetrics.samples_per_second ms).
Proof. unfold sum_metrics; now rewrite fold_sums_perf. Qed.

Lemma total_mini_steps_perm (ms ms' : list LocalMetrics.t) :
  Permutation ms ms' -> total_mini_steps ms = total_mini_steps ms'.
Proof. induction 1; simpl; lia. Qed.

Lemma total_samples_perm (ms ms' : list LocalMetrics.t) :
  Permutation ms ms' -> total_samples ms = total_samples ms'.
Proof. induction 1; simpl; lia. Qed.

Lemma py_max_perm (xs xs' : list Z) :
  Permutation xs xs' -> py_max xs = py_max xs'.
Proof.
  intros Hp.
  destruct (py_max_cases xs) as [[Hnil Hr]|[m Hm]].
  - subst xs. apply Permutation_nil in Hp. now subst xs'.
  - destruct (py_max_cases xs') as [[Hnil Hr']|[m' Hm']].
    + subst xs'. apply Permutation_sym, Permutation_nil in Hp. subst xs. discriminate Hm.
    + rewrite Hm, Hm'. f_equal.
      apply py_max_spec in Hm, Hm'. destruct Hm as [Hin Hub], Hm' as [Hin' Hub'].
      assert (m <= m') by (apply Hub'; now apply Permutation_in with xs).
      assert (m' <= m) by (apply Hub; apply Permutation_in with xs'; [now apply Permutation_sym|assumption]).
      lia.
Qed.

(** X2.  Listing the same records in another order changes nothing in what
    the loop computes from them in integers: the largest step (or the
    [ValueError] of an empty list), the peer count, the samples and the
    mini-steps are the same, and so the division of line 206 raises the same
    exception in both orders or returns in both.  The float sums are another
    matter: the losses 1e16, 1.0, -1e16 add up to 0.0 in that order and to
    1.0 with the last two swapped. *)
Theorem aggregation_order_independent :
  (forall ms ms' : list LocalMetrics.t,
      Permutation ms ms' ->
      py_max (map LocalMetrics.step ms) = py_max (map LocalMetrics.step ms') /\
      alive_peers (sum_metrics ms) = alive_peers (sum_metrics ms') /\
      num_samples (sum_metrics ms) = num_samples (sum_metrics ms') /\
      sum_mini_steps (sum_metrics ms) = sum_mini_steps (sum_metrics ms') /\
      match py_truediv (sum_loss (sum_metrics ms)) (sum_mini_steps (sum_metrics ms)),
            py_truediv (sum_loss (sum_metrics ms')) (sum_mini_steps (sum_metrics ms')) with
      | Ret _, Ret _ => True
      | Raise e, Raise e' => e = e'
      | _, _ => False
      end) /\
  (Permutation [record 1 (10 ^ 16) 1; record 1 1 1; record 1 (- 10 ^ 16) 1]
               [record 1 (10 ^ 16) 1; record 1 (- 10 ^ 16) 1; record 1 1 1] /\
   sum_loss (sum_metrics [record 1 (10 ^ 16) 1; record 1 1 1; record 1 (- 10 ^ 16) 1])
     = float_zero /\
   sum_loss (sum_metrics [record 1 (10 ^ 16) 1; record 1 (- 10 ^ 16) 1; record 1 1 1])
     = nearest_float 1).
Proof.
  split.
  - intros ms ms' Hp.
    assert (Hmini : sum_mini_steps (sum_metrics ms) = sum_mini_steps (sum_metrics ms'))
      by (rewrite !sum_metrics_mini; now apply total_mini_steps_perm).
    split; [apply py_max_perm; now apply Permutation_map|].
    split; [rewrite !sum_metrics_alive; f_equal; now apply Permutation_length|].
    split; [rewrite !sum_metrics_samples; now apply total_samples_perm|].
    split; [exact Hmini|].
    rewrite <- Hmini. unfold py_truediv.
    destruct (float_of_int (sum_mini_steps (sum_metrics ms))); [|reflexivity].
    now destruct (sum_mini_steps (sum_metrics ms) =? 0).
  - split; [apply perm_skip, perm_swap|].
    split; vm_compute; reflexivity.
Qed.

(** Two records at different steps, swapped. *)
Lemma aggregation_order_independent_witness :
  Permutation [record 5 1 2; record 7 3 2] [record 7 3 2; record 5 1 2] /\
  py_max (map LocalMetrics.step [record 5 1 2; record 7 3 2])
    = py_max (map LocalMetrics.step [record 7 3 2; record 5 1 2]) /\
  sum_mini_steps (sum_metrics [record 5 1 2; record 7 3 2])
    = sum_mini_steps (sum_metrics [record 7 3 2; record 5 1 2]).
Proof.
  assert (Hp : Permutation [record 5 1 2; record 7 3 2]
                           [record 7 3 2; record 5 1 2]) by apply perm_swap.
  destruct (proj1 aggregation_order_independent _ _ Hp) as (Hmax & _ & _ & Hmini & _).
  split; [exact Hp|]. split; [exact Hmax|exact Hmini].
Defined.

(** ** What a snapshot holds besides the loss (lines 194-214) *)

(** X3.  In every emitted snapshot, "alive peers" is the number of entries of
    the mapping the store returned, "samples" is the sum of the records'
    [samples_accumulated] and "performance" the float sum of their
    [samples_per_second], added in the order of the mapping. *)
Theorem snapshot_totals :
  forall (PeerId Raw : Type) (parse_obj : Raw -> res LocalMetrics.t)
         (monitor_args : TrainingMonitorArguments.t)
         (env : TickEnv PeerId Raw) (st : Monitor)
         (d : list (PeerId * Raw)) (ms : list LocalMetrics.t),
    dht_get env = Ret (Some d) ->
    comprehension parse_obj (map snd d) = Ret ms ->
    let o := tick parse_obj monitor_args env st in
    emits_snapshot (events o) = true ->
    exists mm,
      monitor_metrics (final o) = Some mm /\
      MonitorMetrics.alive_peers mm = Z.of_nat (List.length d) /\
      MonitorMetrics.samples mm = total_samples ms /\
      MonitorMetrics.performance mm
        = float_sum (map LocalMetrics.samples_per_second ms).
Proof.
  intros PeerId Raw parse_obj monitor_args env st d ms Hget Hdec o Hemit.
  assert (Hlen : List.length ms = List.length d)
    by (rewrite (comprehension_length _ _ _ Hdec); apply length_map).
  subst o. revert Hemit.
  tick_paths parse_obj monitor_args env st; intros Hemit;
    try (observe; discriminate);
    match goal with
    | H : checkpoint_path _ _ _ _ _ |- _ =>
        destruct (checkpoint_path_keeps_report _ _ _ _ _ H) as (_ & Hm & _)
    end;
    unfold final in *; simpl in Hm |- *;
    (eexists; split; [exact Hm|]); simpl;
    (split; [rewrite sum_metrics_alive; now rewrite Hlen|]);
    (split; [apply sum_metrics_samples|apply sum_metrics_perf]).
Qed.

(** Scenario A: two entries, hence two alive peers. *)
Lemma snapshot_totals_witness :
  let env := answers (Some two_peers_at_5) 0%Q in
  let o := tick parse_payload args_no_checkpoints env (monitor_at 4) in
  dht_get env = Ret (Some two_peers_at_5) /\
  emits_snapshot (events o) = true /\
  exists mm,
    monitor_metrics (final o) = Some mm /\
    MonitorMetrics.alive_peers mm = 2 /\
    MonitorMetrics.samples mm = 0.
Proof.
  intros env o.
  split; [reflexivity|]. split; [reflexivity|].
  destruct (snapshot_totals string Payload parse_payload args_no_checkpoints env
              (monitor_at 4) two_peers_at_5 [record 5 1 2; record 5 3 2]
              eq_refl eq_refl eq_refl) as (mm & Hmm & Ha & Hs & _).
  exists mm. split; [exact Hmm|]. split; [exact Ha|exact Hs].
Defined.

(** ** The checkpoint block is gated by the snapshot (lines 187-220) *)

(** X4.  An iteration that emits no snapshot enters no method of the
    checkpoint handler and leaves both the stored metrics and the handler as
    they were. *)
Theorem no_snapshot_no_checkpoint :
  forall (PeerId Raw : Type) (parse_obj : Raw -> res LocalMetrics.t)
         (monitor_args : TrainingMonitorArguments.t)
         (env : TickEnv PeerId Raw) (st : Monitor),
    let o := tick parse_obj monitor_args env st in
    emits_snapshot (events o) = false ->
    touches_checkpoints (events o) = false /\
    monitor_metrics (final o) = monitor_metrics st /\
    checkpoint_handler (final o) = checkpoint_handler st.
Proof.
  intros PeerId Raw parse_obj monitor_args env st o. subst o.
  tick_paths parse_obj monitor_args env st; intros Hemit;
    try (observe; discriminate);
    observe; repeat split; reflexivity.
Qed.

(** Scenario B on scenario C's monitor: the held step and the peers' step
    are both 8. *)
Lemma no_snapshot_no_checkpoint_witness :
  let env := answers (Some [("p1"%string, peer 8 1 1)]) 60%Q in
  let o := tick parse_payload (args_checkpoints 10 3600%Q) env monitor_scenario_c in
  emits_snapshot (events o) = false /\
  touches_checkpoints (events o) = false /\
  checkpoint_handler (final o) = Some handler_scenario_c.
Proof.
  intros env o. split; [reflexivity|].
  destruct (no_snapshot_no_checkpoint string Payload parse_payload
              (args_checkpoints 10 3600%Q) env monitor_scenario_c eq_refl)
    as (Ht & _ & Hh).
  split; [exact Ht|exact Hh].
Defined.

(** ** What an iteration does to the handler (lines 110-141, 216-220) *)

Lemma tick_handler_none {PeerId Raw} (parse_obj : Raw -> res LocalMetrics.t)
    (monitor_args : TrainingMonitorArguments.t)
    (env : TickEnv PeerId Raw) (st : Monitor) :
  checkpoint_handler st = None ->
  checkpoint_handler (final (tick parse_obj monitor_args env st)) = None.
Proof.
  intros Hh. tick_paths parse_obj monitor_args env st;
    try checkpoint_paths; try absurd_path; observe; assumption.
Qed.

(** The handler after an iteration: as it was, or saved at the new step, or
    saved at the new step and stamped by the upload. *)
Lemma tick_handler_cases {PeerId Raw} (parse_obj : Raw -> res LocalMetrics.t)
    (monitor_args : TrainingMonitorArguments.t)
    (env : TickEnv PeerId Raw) (st : Monitor) (h : CheckpointHandler.t) :
  checkpoint_handler st = Some h ->
  let o := tick parse_obj monitor_args env st in
  checkpoint_handler (final o) = Some h \/
  (pulls_state (events o) = true /\
   load_state_from_peers env = Ret tt /\
   (exists interval,
       CheckpointHandler.save_checkpoint_step_interval h = Some interval /\
       interval <= current_step (final o) - CheckpointHandler.previous_step h) /\
   (checkpoint_handler (final o)
      = Some (CheckpointHandler.set_previous_step h (current_step (final o))) \/
    (exports (events o) = true /\
     save_pretrained env = Ret tt /\
     (exists upload,
         CheckpointHandler.upload_interval h = Some upload /\
         (upload <= time_check env - CheckpointHandler.previous_timestamp h)%Q) /\
     checkpoint_handler (final o)
       = Some (CheckpointHandler.set_previous_timestamp
                 (CheckpointHandler.set_previous_step h (current_step (final o)))
                 (time_upload env))))).
Proof.
  intros Hh o. subst o.
  tick_paths parse_obj monitor_args env st;
    try checkpoint_paths; try absurd_path; observe;
    first
      [ left; solve [assumption | reflexivity]
      | right; split; [reflexivity|]; split; [assumption|];
        split; [eexists; split; [eassumption|assumption]|];
        first
          [ left; reflexivity
          | right; split; [reflexivity|]; split; [assumption|];
            split; [eexists; split; [eassumption|assumption]|reflexivity] ] ].
Qed.

(** X5.  The loop writes the handler's bookkeeping only on success and never
    touches its configuration.  After any iteration entered with a handler,
    there is still a handler, with the same two intervals; its
    [previous_step] differs from before only if the state pull was called and
    returned, and is then the new global step; its [previous_timestamp]
    differs from before only if the export was called and returned, and is
    then the clock read after it. *)
Theorem bookkeeping_written_only_on_success :
  forall (PeerId Raw : Type) (parse_obj : Raw -> res LocalMetrics.t)
         (monitor_args : TrainingMonitorArguments.t)
         (env : TickEnv PeerId Raw) (st : Monitor) (h : CheckpointHandler.t),
    checkpoint_handler st = Some h ->
    let o := tick parse_obj monitor_args env st in
    exists h',
      checkpoint_handler (final o) = Some h' /\
      CheckpointHandler.save_checkpoint_step_interval h'
        = CheckpointHandler.save_checkpoint_step_interval h /\
      CheckpointHandler.upload_interval h' = CheckpointHandler.upload_interval h /\
      (CheckpointHandler.previous_step h' <> CheckpointHandler.previous_step h ->
         pulls_state (events o) = true /\
         load_state_from_peers env = Ret tt /\
         CheckpointHandler.previous_step h' = current_step (final o)) /\
      (CheckpointHandler.previous_timestamp h' <> CheckpointHandler.previous_timestamp h ->
         exports (events o) = true /\
         save_pretrained env = Ret tt /\
         CheckpointHandler.previous_timestamp h' = time_upload env).
Proof.
  intros PeerId Raw parse_obj monitor_args env st h Hh o. subst o.
  destruct (tick_handler_cases parse_obj monitor_args env st h Hh)
    as [Hsame|(Hpull & Hload & _ & [Hsaved|(Hexp & Hsp & _ & Hup)])].
  - exists h. split; [exact Hsame|]. repeat split; congruence.
  - eexists. split; [exact Hsaved|]. simpl. repeat split; congruence.
  - eexists. split; [exact Hup|]. simpl. repeat split; congruence.
Qed.

(** Scenario C's monitor at step 9: too early to save, the handler is as it
    was. *)
Lemma bookkeeping_written_only_on_success_witness :
  let env := answers (Some [("p1"%string, peer 9 1 1)]) 60%Q in
  let o := tick parse_payload (args_checkpoints 10 3600%Q) env monitor_scenario_c in
  checkpoint_handler monitor_scenario_c = Some handler_scenario_c /\
  exists h',
    checkpoint_handler (final o) = Some h' /\
    CheckpointHandler.save_checkpoint_step_interval h' = Some 10 /\
    CheckpointHandler.upload_interval h' = Some 3600%Q.
Proof.
  intros env o. split; [reflexivity|].
  destruct (bookkeeping_written_only_on_success string Payload parse_payload
              (args_checkpoints 10 3600%Q) env monitor_scenario_c handler_scenario_c
              eq_refl) as (h' & Hh' & Hi & Hu & _).
  exists h'. split; [exact Hh'|]. split; [exact Hi|exact Hu].
Defined.

(** ** No upload interval (lines 70-72, 123-127) *)

(** X6.  [upload_interval] has no default.  With none set, an iteration
    whose state pull returns goes on to line 124 and ends in [TypeError]:
    [previous_step] has already been advanced to the new step, nothing is
    exported, and neither the sleep nor [hmp.step] is reached. *)
Theorem unset_upload_interval_raises_after_save :
  forall (PeerId Raw : Type) (parse_obj : Raw -> res LocalMetrics.t)
         (monitor_args : TrainingMonitorArguments.t)
         (env : TickEnv PeerId Raw) (st : Monitor) (h : CheckpointHandler.t),
    checkpoint_handler st = Some h ->
    CheckpointHandler.upload_interval h = None ->
    let o := tick parse_obj monitor_args env st in
    pulls_state (events o) = true ->
    load_state_from_peers env = Ret tt ->
    result o = Raise TypeError /\
    checkpoint_handler (final o)
      = Some (CheckpointHandler.set_previous_step h (current_step (final o))) /\
    exports (events o) = false /\
    sleeps (events o) = false /\
    calls_hmp_step (events o) = false.
Proof.
  intros PeerId Raw parse_obj monitor_args env st h Hh Hu o. subst o.
  tick_paths parse_obj monitor_args env st;
    try checkpoint_paths; try absurd_path; observe;
    intros Hpull Hload; try discriminate; try congruence;
    repeat split; reflexivity.
Qed.

(** Checkpoints switched on with every other option left at its default: the
    first report, at step 4, saves and then raises. *)
Lemma unset_upload_interval_raises_after_save_witness :
  let args := {| TrainingMonitorArguments.refresh_period := 30%Q;
                 TrainingMonitorArguments.save_checkpoint_step_interval := Some 5;
                 TrainingMonitorArguments.upload_interval := None;
                 TrainingMonitorArguments.store_checkpoints := true |} in
  let env := answers (Some [("p1"%string, peer 4 1 1)]) 60%Q in
  let o := tick parse_payload args env (startup args 0%Q) in
  pulls_state (events o) = true /\
  load_state_from_peers env = Ret tt /\
  result o = Raise TypeError /\
  sleeps (events o) = false.
Proof.
  intros args env o. split; [reflexivity|]. split; [reflexivity|].
  destruct (unset_upload_interval_raises_after_save string Payload parse_payload args env
              (startup args 0%Q) (CheckpointHandler.init (Some 5) None 0%Q)
              eq_refl eq_refl eq_refl eq_refl) as (Hr & _ & _ & Hs & _).
  split; [exact Hr|exact Hs].
Defined.

(** ** The first save after the start (lines 89, 110-116) *)

(** X7.  [previous_step] starts at -1, not at 0.  In the first iteration of a
    monitor started with checkpoints on and an interval set, a snapshot at
    step [s] is followed by a state pull exactly when [interval <= s + 1]:
    the first save comes one step earlier than the interval counted from 0. *)
Theorem first_save_counts_from_minus_one :
  forall (PeerId Raw : Type) (parse_obj : Raw -> res LocalMetrics.t)
         (monitor_args : TrainingMonitorArguments.t) (now : Q)
         (env : TickEnv PeerId Raw) (interval : Z),
    TrainingMonitorArguments.store_checkpoints monitor_args = true ->
    TrainingMonitorArguments.save_checkpoint_step_interval monitor_args = Some interval ->
    let o := tick parse_obj monitor_args env (startup monitor_args now) in
    emits_snapshot (events o) = true ->
    (pulls_state (events o) = true <-> interval <= current_step (final o) + 1).
Proof.
  intros PeerId Raw parse_obj monitor_args now env interval Hstore Hi o.
  assert (G : forall st h,
             checkpoint_handler st = Some h ->
             CheckpointHandler.save_checkpoint_step_interval h = Some interval ->
             CheckpointHandler.previous_step h = -1 ->
             emits_snapshot (events (tick parse_obj monitor_args env st)) = true ->
             (pulls_state (events (tick parse_obj monitor_args env st)) = true <->
              interval <= current_step (final (tick parse_obj monitor_args env st)) + 1)).
  { intros st h Hh Hint Hprev.
    tick_paths parse_obj monitor_args env st;
      try checkpoint_paths; try absurd_path; observe;
      intros Hemit; try discriminate; split; intros; try reflexivity;
      try discriminate; try lia. }
  subst o.
  apply (G (startup monitor_args now)
           (CheckpointHandler.init (Some interval)
              (TrainingMonitorArguments.upload_interval monitor_args) now)).
  - unfold startup; simpl. now rewrite Hstore, Hi.
  - reflexivity.
  - reflexivity.
Qed.

(** Interval 5: the first report, at step 4, already saves. *)
Lemma first_save_counts_from_minus_one_witness :
  let env := answers (Some [("p1"%string, peer 4 1 1)]) 60%Q in
  let o := tick parse_payload (args_checkpoints 5 3600%Q) env
             (startup (args_checkpoints 5 3600%Q) 0%Q) in
  emits_snapshot (events o) = true /\
  5 <= current_step (final o) + 1 /\
  pulls_state (events o) = true.
Proof.
  intros env o. split; [reflexivity|]. split; [vm_compute; discriminate|].
  apply (proj2 (first_save_counts_from_minus_one string Payload parse_payload
                  (args_checkpoints 5 3600%Q) 0%Q env 5 eq_refl eq_refl eq_refl)).
  vm_compute; discriminate.
Defined.

(** ** Several iterations (lines 179-223) *)

Lemma run_cons {PeerId Raw} (parse_obj : Raw -> res LocalMetrics.t)
    (monitor_args : TrainingMonitorArguments.t)
    (env : TickEnv PeerId Raw) (envs : list (TickEnv PeerId Raw)) (st : Monitor) :
  run parse_obj monitor_args (env :: envs) st =
  match tick parse_obj monitor_args env st with
  | (Ret _, st', evs) => after evs (run parse_obj monitor_args envs st')
  | (Raise e, st', evs) => (Raise e, st', evs)
  end.
Proof. simpl run. now rewrite bind_eq. Qed.

(** A property of the state kept by every iteration whose answers satisfy
    [E], with events that all satisfy [p], is kept by the loop, and all the
    events of the loop satisfy [p]. *)
Lemma run_invariant {PeerId Raw} (parse_obj : Raw -> res LocalMetrics.t)
    (monitor_args : TrainingMonitorArguments.t)
    (I : Monitor -> Prop) (E : TickEnv PeerId Raw -> Prop) (p : event -> bool) :
  (forall env st, E env -> I st ->
     I (final (tick parse_obj monitor_args env st)) /\
     forallb p (events (tick parse_obj monitor_args env st)) = true) ->
  forall envs st, Forall E envs -> I st ->
    I (final (run parse_obj monitor_args envs st)) /\
    forallb p (events (run parse_obj monitor_args envs st)) = true.
Proof.
  intros Htick envs. induction envs as [|env envs IH]; intros st HE HI.
  - split; [exact HI|reflexivity].
  - inversion HE as [|? ? Henv Henvs]; subst.
    rewrite run_cons. destruct (Htick env st Henv HI) as [HI1 Hp1].
    destruct (tick parse_obj monitor_args env st) as [[[[]|e] st1] evs1];
      unfold final, events in HI1, Hp1; simpl in HI1, Hp1.
    + destruct (IH st1 Henvs HI1) as [HI2 Hp2].
      destruct (run parse_obj monitor_args envs st1) as [[r st2] evs2].
      unfold final, events in *; simpl in *.
      split; [exact HI2|]. now rewrite forallb_app, Hp1, Hp2.
    + split; assumption.
Qed.

Lemma forallb_negb (p : event -> bool) (evs : list event) :
  forallb (fun e => negb (p e)) evs = negb (existsb p evs).
Proof.
  induction evs as [|e evs IH]; simpl; [reflexivity|].
  rewrite IH. now destruct (p e).
Qed.

Lemma forallb_true (evs : list event) : forallb (fun _ => true) evs = true.
Proof. induction evs; simpl; auto. Qed.

(** ** Checkpoints switched off (lines 73, 176-177, 216) *)

(** X10.  With [store_checkpoints] off (its default), no run, however long
    and from whatever state, enters a method of the checkpoint handler, and
    the handler, if there is one, is left as it was. *)
Theorem checkpoints_off_never_touched :
  forall (PeerId Raw : Type) (parse_obj : Raw -> res LocalMetrics.t)
         (monitor_args : TrainingMonitorArguments.t)
         (envs : list (TickEnv PeerId Raw)) (st : Monitor),
    TrainingMonitorArguments.store_checkpoints monitor_args = false ->
    let o := run parse_obj monitor_args envs st in
    touches_checkpoints (events o) = false /\
    checkpoint_handler (final o) = checkpoint_handler st.
Proof.
  intros PeerId Raw parse_obj monitor_args envs st Hoff o.
  destruct (run_invariant parse_obj monitor_args
              (fun st' => checkpoint_handler st' = checkpoint_handler st)
              (fun _ : TickEnv PeerId Raw => True)
              (fun e => negb (is_checkpoint_event e))) with
    (envs := envs) (st := st) as [HI Hp].
  - intros env st' _ HI. rewrite forallb_negb, <- HI.
    tick_paths parse_obj monitor_args env st'; try checkpoint_paths;
      observe; split; reflexivity.
  - clear. induction envs; constructor; auto.
  - reflexivity.
  - fold o in HI, Hp. rewrite forallb_negb in Hp.
    split; [|exact HI]. unfold touches_checkpoints.
    now destruct (existsb is_checkpoint_event (events o)).
Qed.

(** The default options, three reports in a row. *)
Lemma checkpoints_off_never_touched_witness :
  let envs := [answers (Some [("p1"%string, peer 5 1 1)]) 0%Q;
               answers (Some [("p1"%string, peer 10 1 1)]) 30%Q;
               answers (Some [("p1"%string, peer 15 1 1)]) 60%Q] in
  let o := run parse_payload args_no_checkpoints envs (startup args_no_checkpoints 0%Q) in
  TrainingMonitorArguments.store_checkpoints args_no_checkpoints = false /\
  current_step (final o) = 15 /\
  touches_checkpoints (events o) = false.
Proof.
  intros envs o. split; [reflexivity|]. split; [reflexivity|].
  apply (checkpoints_off_never_touched string Payload parse_payload args_no_checkpoints
           envs (startup args_no_checkpoints 0%Q) eq_refl).
Defined.

(** ** No save interval (lines 111-112) *)

(** X11.  With [save_checkpoint_step_interval] unset, [is_time_to_save_state]
    always answers no: whatever the run, the state is never pulled, the clock
    never read and nothing exported, and the handler is left as it was. *)
Theorem no_save_interval_never_saves :
  forall (PeerId Raw : Type) (parse_obj : Raw -> res LocalMetrics.t)
         (monitor_args : TrainingMonitorArguments.t)
         (envs : list (TickEnv PeerId Raw)) (st : Monitor) (h : CheckpointHandler.t),
    checkpoint_handler st = Some h ->
    CheckpointHandler.save_checkpoint_step_interval h = None ->
    let o := run parse_obj monitor_args envs st in
    pulls_state (events o) = false /\
    reads_clock (events o) = false /\
    exports (events o) = false /\
    checkpoint_handler (final o) = Some h.
Proof.
  intros PeerId Raw parse_obj monitor_args envs st h Hh Hnone o.
  destruct (run_invariant parse_obj monitor_args
              (fun st' => checkpoint_handler st' = Some h)
              (fun _ : TickEnv PeerId Raw => True)
              (fun e => negb (is_checkpoint_call e))) with
    (envs := envs) (st := st) as [HI Hp].
  - intros env st' _ HI. rewrite forallb_negb.
    tick_paths parse_obj monitor_args env st'; try checkpoint_paths;
      try absurd_path; observe; split; solve [assumption | reflexivity].
  - clear. induction envs; constructor; auto.
  - exact Hh.
  - fold o in HI, Hp. rewrite forallb_negb in Hp.
    apply negb_true_iff in Hp.
    assert (Hall : forall q : event -> bool,
               (forall e, q e = true -> is_checkpoint_call e = true) ->
               existsb q (events o) = false).
    { intros q Hq. destruct (existsb q (events o)) eqn:Hex; [|reflexivity].
      apply existsb_exists in Hex. destruct Hex as (e & Hin & He).
      assert (existsb is_checkpoint_call (events o) = true)
        by (apply existsb_exists; exists e; auto).
      congruence. }
    repeat split; try exact HI; apply Hall; intros []; simpl; congruence.
Qed.

(** Checkpoints on, no save interval: three reports, no save. *)
Lemma no_save_interval_never_saves_witness :
  let args := {| TrainingMonitorArguments.refresh_period := 30%Q;
                 TrainingMonitorArguments.save_checkpoint_step_interval := None;
                 TrainingMonitorArguments.upload_interval := Some 3600%Q;
                 TrainingMonitorArguments.store_checkpoints := true |} in
  let envs := [answers (Some [("p1"%string, peer 5 1 1)]) 0%Q;
               answers (Some [("p1"%string, peer 500 1 1)]) 30%Q] in
  let o := run parse_payload args envs (startup args 0%Q) in
  emits_snapshot (events o) = true /\
  touches_checkpoints (events o) = true /\
  pulls_state (events o) = false.
Proof.
  intros args envs o. split; [reflexivity|]. split; [reflexivity|].
  apply (no_save_interval_never_saves string Payload parse_payload args envs
           (startup args 0%Q) (CheckpointHandler.init None (Some 3600%Q) 0%Q)
           eq_refl eq_refl).
Defined.

(** ** The bookkeeping only moves forward (lines 110-127, 138-141) *)

(** X12.  With a save interval that is not negative, [previous_step] never
    decreases, however long the run: each save happens at a step at least one
    interval past the last one.  (The held global step itself can decrease,
    since line 187 tests [!=].) *)
Theorem previous_step_never_decreases :
  forall (PeerId Raw : Type) (parse_obj : Raw -> res LocalMetrics.t)
         (monitor_args : TrainingMonitorArguments.t)
         (envs : list (TickEnv PeerId Raw)) (st : Monitor) (h : CheckpointHandler.t),
    checkpoint_handler st = Some h ->
    (forall interval,
        CheckpointHandler.save_checkpoint_step_interval h = Some interval ->
        0 <= interval) ->
    let o := run parse_obj monitor_args envs st in
    exists h',
      checkpoint_handler (final o) = Some h' /\
      CheckpointHandler.previous_step h <= CheckpointHandler.previous_step h'.
Proof.
  intros PeerId Raw parse_obj monitor_args envs st h Hh Hpos o.
  destruct (run_invariant parse_obj monitor_args
              (fun st' => exists h',
                 checkpoint_handler st' = Some h' /\
                 CheckpointHandler.save_checkpoint_step_interval h'
                   = CheckpointHandler.save_checkpoint_step_interval h /\
                 CheckpointHandler.previous_step h <= CheckpointHandler.previous_step h')
              (fun _ : TickEnv PeerId Raw => True) (fun _ => true)) with
    (envs := envs) (st := st) as [(h' & Hh' & _ & Hle) _].
  - intros env st' _ (h' & Hh' & Hi' & Hle). split; [|apply forallb_true].
    destruct (tick_handler_cases parse_obj monitor_args env st' h' Hh')
      as [Hsame|(_ & _ & (i & Hi & Hge) & [Hsaved|(_ & _ & _ & Hup)])].
    + exists h'; auto.
    + eexists; split; [exact Hsaved|]; simpl. split; [assumption|].
      rewrite Hi' in Hi. specialize (Hpos i Hi). lia.
    + eexists; split; [exact Hup|]; simpl. split; [assumption|].
      rewrite Hi' in Hi. specialize (Hpos i Hi). lia.
  - clear. induction envs; constructor; auto.
  - exists h; repeat split; auto; lia.
  - exists h'; split; assumption.
Qed.

(** Scenario C's monitor: a report at step 10, then the peer is replaced by
    one at step 3; the save of step 10 stands. *)
Lemma previous_step_never_decreases_witness :
  let envs := [answers (Some [("p1"%string, peer 10 1 1)]) 60%Q;
               answers (Some [("p2"%string, peer 3 1 1)]) 90%Q] in
  let o := run parse_payload (args_checkpoints 10 3600%Q) envs monitor_scenario_c in
  current_step (final o) = 3 /\
  exists h',
    checkpoint_handler (final o) = Some h' /\
    CheckpointHandler.previous_step handler_scenario_c
      <= CheckpointHandler.previous_step h'.
Proof.
  intros envs o. split; [reflexivity|].
  apply (previous_step_never_decreases string Payload parse_payload
           (args_checkpoints 10 3600%Q) envs monitor_scenario_c handler_scenario_c eq_refl).
  intros interval Hi. inversion Hi. lia.
Defined.

(** X13.  With an upload interval that is not negative and a clock that does
    not run backwards between the check of line 124 and the stamp of line
    141, [previous_timestamp] never decreases, however long the run. *)
Theorem previous_timestamp_never_decreases :
  forall (PeerId Raw : Type) (parse_obj : Raw -> res LocalMetrics.t)
         (monitor_args : TrainingMonitorArguments.t)
         (envs : list (TickEnv PeerId Raw)) (st : Monitor) (h : CheckpointHandler.t),
    checkpoint_handler st = Some h ->
    (forall upload,
        CheckpointHandler.upload_interval h = Some upload -> (0 <= upload)%Q) ->
    Forall (fun env => (time_check env <= time_upload env)%Q) envs ->
    let o := run parse_obj monitor_args envs st in
    exists h',
      checkpoint_handler (final o) = Some h' /\
      (CheckpointHandler.previous_timestamp h <= CheckpointHandler.previous_timestamp h')%Q.
Proof.
  intros PeerId Raw parse_obj monitor_args envs st h Hh Hpos Hclock o.
  destruct (run_invariant parse_obj monitor_args
              (fun st' => exists h',
                 checkpoint_handler st' = Some h' /\
                 CheckpointHandler.upload_interval h' = CheckpointHandler.upload_interval h /\
                 (CheckpointHandler.previous_timestamp h
                    <= CheckpointHandler.previous_timestamp h')%Q)
              (fun env : TickEnv PeerId Raw => (time_check env <= time_upload env)%Q)
              (fun _ => true)) with
    (envs := envs) (st := st) as [(h' & Hh' & _ & Hle) _].
  - intros env st' Henv (h' & Hh' & Hu' & Hle). split; [|apply forallb_true].
    destruct (tick_handler_cases parse_obj monitor_args env st' h' Hh')
      as [Hsame|(_ & _ & _ & [Hsaved|(_ & _ & (u & Hu & Hdue) & Hup)])].
    + exists h'; auto.
    + eexists; split; [exact Hsaved|]; simpl. split; assumption.
    + eexists; split; [exact Hup|]; simpl. split; [assumption|].
      rewrite Hu' in Hu. specialize (Hpos u Hu). lra.
  - exact Hclock.
  - exists h; repeat split; auto. apply Qle_refl.
  - exists h'; split; assumption.
Qed.

(** Scenario C's monitor: a save and an upload at step 10, more than an hour
    after the start. *)
Lemma previous_timestamp_never_decreases_witness :
  let envs := [answers (Some [("p1"%string, peer 10 1 1)]) 4000%Q] in
  let o := run parse_payload (args_checkpoints 10 3600%Q) envs monitor_scenario_c in
  exports (events o) = true /\
  exists h',
    checkpoint_handler (final o) = Some h' /\
    (CheckpointHandler.previous_timestamp handler_scenario_c
       <= CheckpointHandler.previous_timestamp h')%Q.
Proof.
  intros envs o. split; [reflexivity|].
  apply (previous_timestamp_never_decreases string Payload parse_payload
           (args_checkpoints 10 3600%Q) envs monitor_scenario_c handler_scenario_c eq_refl).
  - intros upload Hu. inversion Hu. discriminate.
  - repeat constructor. simpl. apply Qle_refl.
Defined.

(** ** How an iteration ends (lines 180, 221-223) *)

(** X15.  Every iteration begins with the store read.  An iteration that
    raises nothing ends with the same three calls, made nowhere before in
    it: the debug line, [time.sleep(refresh_period)] and [hmp.step] with the
    step and the metrics held at that point.  So an iteration that found
    nothing new hands [hmp.step] the step and metrics it started with. *)
Theorem iteration_ends_with_sleep_and_report :
  forall (PeerId Raw : Type) (parse_obj : Raw -> res LocalMetrics.t)
         (monitor_args : TrainingMonitorArguments.t)
         (env : TickEnv PeerId Raw) (st : Monitor),
    let o := tick parse_obj monitor_args env st in
    (exists rest, events o = EvDhtGet :: rest) /\
    (result o = Ret tt ->
       exists middle,
         events o =
           EvDhtGet :: middle ++
             [EvDebugAlive;
              EvSleep (TrainingMonitorArguments.refresh_period monitor_args);
              EvHmpStep (current_step (final o)) (monitor_metrics (final o))] /\
         sleeps middle = false /\
         calls_hmp_step middle = false /\
         (emits_snapshot middle = false -> final o = st)).
Proof.
  intros PeerId Raw parse_obj monitor_args env st o. subst o.
  tick_paths parse_obj monitor_args env st;
    (split; [eexists; reflexivity|]); unfold result; simpl; intros Hr;
    try discriminate Hr.
  - exists []; repeat split; reflexivity.
  - exists []; repeat split; reflexivity.
  - match goal with
    | H : checkpoint_path _ _ _ _ _ |- _ =>
        destruct (checkpoint_path_keeps_report _ _ _ _ _ H) as (_ & _ & _ & Hs & Hh)
    end.
    match goal with
    | |- context [debug_lines ?ms ++ EvInfoStep ?s ?l :: ?evs ++ _] =>
        exists (debug_lines ms ++ EvInfoStep s l :: evs)
    end.
    split; [unfold events, closing_events; simpl; now rewrite <- app_assoc|].
    observe. rewrite Hs, Hh. repeat split; try reflexivity.
    discriminate.
Qed.

(** Scenario B: nothing new, the held step 5 and the empty metrics are sent
    again. *)
Lemma iteration_ends_with_sleep_and_report_witness :
  let env := answers (Some two_peers_at_5) 0%Q in
  let o := tick parse_payload args_no_checkpoints env (monitor_at 5) in
  result o = Ret tt /\
  exists middle,
    events o = EvDhtGet :: middle ++ [EvDebugAlive; EvSleep 30%Q; EvHmpStep 5 None].
Proof.
  intros env o. split; [reflexivity|].
  destruct (proj2 (iteration_ends_with_sleep_and_report string Payload parse_payload
                     args_no_checkpoints env (monitor_at 5)) eq_refl)
    as (middle & Hev & _).
  exists middle. exact Hev.
Defined.
